(** * Football video analysis: trackers, goalkeeper resolution and the
      frame pipeline

    A shallow embedding of [utils/detectors.py], [utils/trackers.py] and
    [utils/processor.py], with the part of [app.py] that drives them.

    A coordinate is the rational value of a finite [float32]; every
    NumPy operation on coordinates is the exact operation followed by
    rounding to the nearest [float32], ties to even.  Values beyond the
    [float32] range, far above any pixel coordinate, are not modelled.
    The external collaborators (the YOLO detectors, ByteTrack, the team
    classifier) are parameters of the sections that use them. *)

From Stdlib Require Import List ZArith QArith Qround Qabs Lia Bool Arith.
From Stdlib Require Import Reals Qreals Lra.
From Stdlib Require Import Floats.SpecFloat.
Import ListNotations.

Close Scope R_scope.
Close Scope Q_scope.
Open Scope nat_scope.

(* ===================================================================== *)
(** ** Geometry: points, boxes and anchors *)
(* ===================================================================== *)

Module Geometry.

Definition Qltb (a b : Q) : bool := negb (Qle_bool b a).

(** *** float32 arithmetic on the values *)

Definition pow2 (e : Z) : Q :=
  match e with
  | Z0 => 1%Q
  | Zpos p => inject_Z (2 ^ Zpos p)
  | Zneg p => (1 # (2 ^ p))%Q
  end.

(** The exponent [l] with [2^l <= a < 2^(l+1)], for a positive [a]. *)
Definition floor_log2 (a : Q) : Z :=
  let l := (Z.log2 (Qnum a) - Z.log2 (Zpos (Qden a)))%Z in
  if Qle_bool (pow2 l) a then l else (l - 1)%Z.

(** The nearest integer, ties to even. *)
Definition rne (q : Q) : Z :=
  let f := Qfloor q in
  match Qcompare (q - inject_Z f)%Q (1 # 2)%Q with
  | Lt => f
  | Gt => (f + 1)%Z
  | Eq => if Z.even f then f else (f + 1)%Z
  end.

(** Rounding to the nearest [float32] (24 bits of precision, subnormal
    numbers spaced [2^-149] apart), ties to even. *)
Definition round32 (q : Q) : Q :=
  let q := Qred q in
  if Qeq_bool q 0 then 0%Q
  else
    let e := Z.max (floor_log2 (Qabs q) - 23) (-149) in
    Qred (inject_Z (rne (q / pow2 e)%Q) * pow2 e)%Q.

Definition fadd32 (a b : Q) : Q := round32 (a + b)%Q.
Definition fsub32 (a b : Q) : Q := round32 (a - b)%Q.
Definition fmul32 (a b : Q) : Q := round32 (a * b)%Q.
Definition fdiv32 (a b : Q) : Q := round32 (a / b)%Q.

(** [np.sqrt] on a [float32]: the square root, correctly rounded.  The
    argument is a sum of squares wherever the code takes a root; the
    root of a negative number would be [nan]. *)
Definition sqrt32 (q : Q) : Q :=
  let q := Qred q in
  if Qle_bool q 0 then 0%Q
  else
    let e := Z.max (floor_log2 q / 2 - 23) (-149) in
    let x := (q / pow2 (2 * e))%Q in
    let k := Z.sqrt (Qfloor x) in
    let k' := match Qcompare (4 * x)%Q (inject_Z ((2 * k + 1) * (2 * k + 1))) with
              | Lt => k
              | Gt => (k + 1)%Z
              | Eq => if Z.even k then k else (k + 1)%Z
              end in
    Qred (inject_Z k' * pow2 e)%Q.

(** The same operations in the Standard Library's IEEE 754 model, at the
    [float32] format, to check the definitions above against. *)
Definition sf_of_Z (z : Z) : spec_float :=
  match z with
  | Z0 => S754_zero false
  | _ => binary_normalize 24 128 z 0 false
  end.

Definition sf_of_Q (q : Q) : spec_float :=
  SFdiv 24 128 (sf_of_Z (Qnum q)) (sf_of_Z (Zpos (Qden q))).

Definition sf_to_Q (x : spec_float) : Q :=
  match x with
  | S754_finite s m e =>
      Qred ((if s then - inject_Z (Zpos m) else inject_Z (Zpos m)) * pow2 e)%Q
  | _ => 0%Q
  end.

(** *** Points, boxes and anchors *)

Definition point : Type := (Q * Q)%type.

(** One row of [Detections.xyxy]. *)
Record bbox : Type := mk_bbox { x1 : Q; y1 : Q; x2 : Q; y2 : Q }.

(** [sv.Position.CENTER]: [(x1 + x2) / 2, (y1 + y2) / 2] on [float32]
    columns. *)
Definition center (b : bbox) : point :=
  (fdiv32 (fadd32 (x1 b) (x2 b)) 2, fdiv32 (fadd32 (y1 b) (y2 b)) 2).

(** [sv.Position.BOTTOM_CENTER]: [(x1 + x2) / 2, y2]. *)
Definition bottom_center (b : bbox) : point :=
  (fdiv32 (fadd32 (x1 b) (x2 b)) 2, y2 b).

(** [sv.pad_boxes(xyxy, px)] *)
Definition pad_box (px : Q) (b : bbox) : bbox :=
  mk_bbox (fsub32 (x1 b) px) (fsub32 (y1 b) px)
          (fadd32 (x2 b) px) (fadd32 (y2 b) px).

(** The difference of two [float32] points, as NumPy computes it. *)
Definition psub32 (p q : point) : point :=
  (fsub32 (fst p) (fst q), fsub32 (snd p) (snd q)).

(** [np.linalg.norm] on a [float32] pair: the squares, their sum and the
    root are each rounded. *)
Definition norm32 (v : point) : Q :=
  sqrt32 (fadd32 (fmul32 (fst v) (fst v)) (fmul32 (snd v) (snd v))).

(** The distance the code computes between two points. *)
Definition dist32 (p q : point) : Q := norm32 (psub32 p q).

(** Exact geometry, to compare the computed distances with: the exact
    difference, the exact squared norm and the Euclidean norm as a real
    number. *)
Definition psub (p q : point) : point :=
  ((fst p - fst q)%Q, (snd p - snd q)%Q).

Definition norm_sq (v : point) : Q := (fst v * fst v + snd v * snd v)%Q.

Definition norm (v : point) : R := sqrt (Q2R (norm_sq v)).

End Geometry.

(* ===================================================================== *)
(** ** utils/detectors.py *)
(* ===================================================================== *)

Module Detectors.
Import Geometry.

Definition BALL_ID : Z := 0.
Definition GOALKEEPER_ID : Z := 1.
Definition PLAYER_ID : Z := 2.
Definition REFEREE_ID : Z := 3.

(** One entry of a [supervision.Detections]; a [Detections] value is the
    list of its entries, in order. *)
Record Detection : Type := mk_detection {
  xyxy : bbox;
  confidence : Q;
  class_id : Z;
  tracker_id : option Z
}.

Definition Detections : Type := list Detection.

(** [detections[detections.class_id == c]] *)
Definition with_class (c : Z) (detections : Detections) : Detections :=
  filter (fun d => Z.eqb (class_id d) c) detections.

(** [detections.get_anchors_coordinates(anchor)] *)
Definition get_anchors_coordinates
    (anchor : bbox -> point) (detections : Detections) : list point :=
  map (fun d => anchor (xyxy d)) detections.

Definition set_class_id (c : Z) (d : Detection) : Detection :=
  mk_detection (xyxy d) (confidence d) c (tracker_id d).

Definition set_xyxy (b : bbox) (d : Detection) : Detection :=
  mk_detection b (confidence d) (class_id d) (tracker_id d).

(** [detections[mask]] for a boolean mask of the same length. *)
Fixpoint mask_select {A : Type} (mask : list bool) (l : list A) : list A :=
  match mask, l with
  | m :: mask', x :: l' =>
      if m then x :: mask_select mask' l' else mask_select mask' l'
  | _, _ => []
  end.

End Detectors.

(* ===================================================================== *)
(** ** utils/trackers.py *)
(* ===================================================================== *)

Module Trackers.
Import Geometry Detectors.

(** [collections.deque(maxlen=n).append]: the new element goes to the
    right end and, when the deque is then longer than [maxlen], the
    leftmost (oldest) element is dropped. *)
Definition deque_append {A : Type} (maxlen : nat) (d : list A) (x : A)
    : list A :=
  let d' := d ++ [x] in
  if maxlen <? length d' then tl d' else d'.

(** [np.argmin]: the index of the first occurrence of the minimum. *)
Fixpoint argmin (l : list Q) : nat :=
  match l with
  | [] => 0
  | d :: l' =>
      match l' with
      | [] => 0
      | _ :: _ =>
          let j := argmin l' in
          if Qle_bool d (nth j l' 0%Q) then 0 else S j
      end
  end.

Record BallTracker : Type := mk_ball_tracker {
  maxlen : nat;
  buffer : list point;
  last_position : option point
}.

(** [BallTracker.__init__] *)
Definition init (buffer_size : nat) : BallTracker :=
  mk_ball_tracker buffer_size [] None.

(** [BallTracker.reset] *)
Definition reset (t : BallTracker) : BallTracker :=
  mk_ball_tracker (maxlen t) [] None.

(** [BallTracker.update]: the returned position ([None] is Python's
    [None]) and the tracker after the call. *)
Definition update (t : BallTracker) (detections : Detections)
    : option point * BallTracker :=
  match detections with
  | [] => (None, t)
  | _ :: _ =>
      let xy := get_anchors_coordinates center detections in
      let new_position :=
        match last_position t with
        | None => nth 0 xy (0, 0)%Q
        | Some last =>
            let distances := map (fun p => norm32 (psub32 p last)) xy in
            nth (argmin distances) xy (0, 0)%Q
        end in
      (Some new_position,
       mk_ball_tracker (maxlen t)
         (deque_append (maxlen t) (buffer t) new_position)
         (Some new_position))
  end.

(** Consecutive [update] calls, one per frame. *)
Fixpoint updates (t : BallTracker) (frames : list Detections) : BallTracker :=
  match frames with
  | [] => t
  | detections :: rest => updates (snd (update t detections)) rest
  end.

End Trackers.

(* ===================================================================== *)
(** ** utils/processor.py *)
(* ===================================================================== *)

Module Processor.
Import Geometry Detectors Trackers.

(** *** NumPy floats, as far as the resolver needs them

    The mean of an empty selection is [nan]; arithmetic with [nan]
    yields [nan], and every ordered comparison with [nan] is [False]. *)
Inductive float : Type :=
| NaN
| Fin (q : Q).

Definition fsub (a b : float) : float :=
  match a, b with Fin x, Fin y => Fin (fsub32 x y) | _, _ => NaN end.

Definition fadd (a b : float) : float :=
  match a, b with Fin x, Fin y => Fin (fadd32 x y) | _, _ => NaN end.

Definition fmul (a b : float) : float :=
  match a, b with Fin x, Fin y => Fin (fmul32 x y) | _, _ => NaN end.

Definition fsqrt (a : float) : float :=
  match a with Fin x => Fin (sqrt32 x) | NaN => NaN end.

Definition flt (a b : float) : bool :=
  match a, b with Fin x, Fin y => Qltb x y | _, _ => false end.

Definition fpoint : Type := (float * float)%type.

Definition to_fpoint (p : point) : fpoint := (Fin (fst p), Fin (snd p)).

Definition fpsub (p q : fpoint) : fpoint :=
  (fsub (fst p) (fst q), fsub (snd p) (snd q)).

(** [np.linalg.norm] on a pair of floats: the root of the dot product
    of the pair with itself, the squares and their sum rounded to
    [float32] one after the other. *)
Definition fnorm (v : fpoint) : float :=
  fsqrt (fadd (fmul (fst v) (fst v)) (fmul (snd v) (snd v))).

(** The [float32] sum of a column, row after row. *)
Definition sum32 (l : list Q) : Q :=
  match l with
  | [] => 0%Q
  | x :: rest => fold_left fadd32 rest x
  end.

(** The [float32] mean of a non-empty list of points: each column is
    summed and divided by the number of rows. *)
Definition mean_point (xy : list point) : point :=
  let n := inject_Z (Z.of_nat (length xy)) in
  (fdiv32 (sum32 (map fst xy)) n, fdiv32 (sum32 (map snd xy)) n).

(** [xy.mean(axis=0)] on an array of shape (n, 2); on no row at all the
    sum is 0, the count is 0 and the quotient is [nan]. *)
Definition mean_axis0 (xy : list point) : fpoint :=
  match xy with
  | [] => (NaN, NaN)
  | _ :: _ => to_fpoint (mean_point xy)
  end.

(** The exact mean of a list of points, for comparison with the
    centroid the code computes. *)
Definition exact_mean (xy : list point) : point :=
  let n := inject_Z (Z.of_nat (length xy)) in
  ((fold_right Qplus 0 (map fst xy) / n)%Q,
   (fold_right Qplus 0 (map snd xy) / n)%Q).

(** [players_xy[players.class_id == c]] *)
Definition team_xy (c : Z) (players : Detections) : list point :=
  mask_select (map (fun d => Z.eqb (class_id d) c) players)
              (get_anchors_coordinates bottom_center players).

Definition resolve_goalkeepers_team_id (players goalkeepers : Detections)
    : list Z :=
  let goalkeepers_xy := get_anchors_coordinates bottom_center goalkeepers in
  let team_0_centroid := mean_axis0 (team_xy 0 players) in
  let team_1_centroid := mean_axis0 (team_xy 1 players) in
  map (fun goalkeeper_xy =>
         let dist_0 := fnorm (fpsub (to_fpoint goalkeeper_xy) team_0_centroid) in
         let dist_1 := fnorm (fpsub (to_fpoint goalkeeper_xy) team_1_centroid) in
         if flt dist_0 dist_1 then 0%Z else 1%Z)
      goalkeepers_xy.

(** *** Video frames

    [sv.get_video_frames_generator(path, stride, start, end)] over a
    video given as the list of its frames. *)

(** The loop of the generator: after each frame it yields it skips
    [stride - 1] frames. *)
Fixpoint take_every {A : Type} (stride to_skip : nat) (l : list A) : list A :=
  match l with
  | [] => []
  | x :: l' =>
      match to_skip with
      | 0 => x :: take_every stride (stride - 1) l'
      | S k => take_every stride k l'
      end
  end.

(** The set-up the generator starts with: an [end] beyond the frame
    count raises "Requested frames are outbound" ([None]); otherwise the
    window is from [start] to [end], or to the last frame without
    [end]. *)
Definition validate_and_setup_video {A : Type}
    (video : list A) (start : nat) (end_ : option nat) : option (nat * nat) :=
  let total_frames := length video in
  match end_ with
  | Some e => if total_frames <? e then None else Some (start, Nat.min e total_frames)
  | None => Some (start, total_frames)
  end.

(** The frames the generator yields, or [None] when it raises at its
    first step. *)
Definition get_video_frames_generator {A : Type}
    (video : list A) (stride start : nat) (end_ : option nat) : option (list A) :=
  match validate_and_setup_video video start end_ with
  | None => None
  | Some (first, last) =>
      Some (take_every stride 0 (firstn (last - first) (skipn first video)))
  end.

Record Stats : Type := mk_stats {
  frames_procesados : Z;
  jugadores_equipo_0 : Z;
  jugadores_equipo_1 : Z;
  porteros_detectados : Z;
  arbitros_detectados : Z;
  detecciones_balon : Z;
  total_detecciones : Z
}.

Definition stats0 : Stats := mk_stats 0 0 0 0 0 0 0.

Definition count_eq (c : Z) (ids : list Z) : Z :=
  Z.of_nat (length (filter (Z.eqb c) ids)).

Definition len {A : Type} (l : list A) : Z := Z.of_nat (length l).

Definition nonempty {A : Type} (l : list A) : bool :=
  match l with [] => false | _ :: _ => true end.

Section Pipeline.

Variable frame : Type.
(** The state of [sv.ByteTrack]. *)
Variable tracker : Type.
(** A fitted [TeamClassifier]. *)
Variable classifier : Type.

(** [sv.crop_image(frame, xyxy)] *)
Definition crop : Type := (frame * bbox)%type.

(** [get_detections(player_detector, frame, confidence=0.3)] *)
Variable get_detections : frame -> Detections.
(** [detections.with_nms(threshold, class_agnostic)] *)
Variable with_nms : Q -> bool -> Detections -> Detections.
(** [tracker.update_with_detections] *)
Variable update_with_detections : tracker -> Detections -> tracker * Detections.
(** The ball model: [None] when the application has none; when present,
    [predict] followed by [Detections.from_ultralytics], where [None]
    stands for a raised exception. *)
Variable ball_yolo : option (frame -> option Detections).
(** [TeamClassifier.fit]; [None] stands for a raised exception. *)
Variable fit : list crop -> option classifier.
(** [TeamClassifier.predict] *)
Variable predict : classifier -> list crop -> list Z.

Definition crops_of (f : frame) (players : Detections) : list crop :=
  map (fun d => (f, xyxy d)) players.

(** Modelled from the spec: [TeamClassifier] belongs to the external
    [sports] package and its [fit] is not in the sources; the contract
    of the team classifier has fitting with zero crops fail
    explicitly. *)
Definition fit_rejects_no_crops : Prop := fit [] = None.

(** The loop of [create_team_classifier]: [crops] is the accumulator,
    [frames] what the generator still has to yield. *)
Fixpoint collect_crops (max_crops : Z) (crops : list crop)
    (frames : list frame) : list crop :=
  match frames with
  | [] => crops
  | f :: rest =>
      let detections := get_detections f in
      let detections := with_nms (1 # 2)%Q true detections in
      let players := with_class PLAYER_ID detections in
      let crops := crops ++ crops_of f players in
      if (len crops >=? max_crops)%Z then crops
      else collect_crops max_crops crops rest
  end.

(** The crops gathered before [fit] is called; [None] when the frame
    generator raises. *)
Definition collected_crops (video : list frame)
    (stride : nat) (max_crops : Z) : option (list crop) :=
  match get_video_frames_generator video stride 0 None with
  | None => None
  | Some frame_generator => Some (collect_crops max_crops [] frame_generator)
  end.

Definition create_team_classifier (video : list frame)
    (stride : nat) (max_crops : Z) : option classifier :=
  match collected_crops video stride max_crops with
  | None => None
  | Some crops => fit crops
  end.

(** What [sink.write_frame] receives: the frame as it came, or the
    frame with what the annotators drew on it. *)
Inductive written : Type :=
| Raw (f : frame)
| Annotated (f : frame) (team0 team1 referees : Detections)
            (ball_position : option point) (trail : list point).

(** The collaborator calls and stages of a run, in program order. *)
Inductive event : Type :=
| ProgressCallback (frame_idx : nat)
| GetDetections (f : frame)
| TrackerUpdate (detections : Detections)
| BallPredict (f : frame)
| BallTrackerUpdate (ball_detections : Detections)
| ClassifierPredict (crops : list crop)
| ResolveGoalkeepers (players goalkeepers : Detections)
| WriteFrame (w : written).

Record State : Type := mk_state {
  stats : Stats;
  byte_track : tracker;
  ball_tracker : BallTracker;
  trace : list event
}.

(** The ball stage: the detections handed to the ball tracker and the
    events of the stage. *)
Definition detect_ball (f : frame) (detections : Detections)
    : Detections * list event :=
  match ball_yolo with
  | Some yolo =>
      match yolo f with
      | Some ball_detections =>
          (if nonempty ball_detections
           then with_nms (1 # 10)%Q false ball_detections
           else ball_detections,
           [BallPredict f])
      | None => (with_class BALL_ID detections, [BallPredict f])
      end
  | None =>
      let ball_detections := with_class BALL_ID detections in
      (map (fun d => set_xyxy (pad_box 10 (xyxy d)) d) ball_detections, [])
  end.

(** The body of the frame loop of [process_video]. *)
Definition process_frame (team_classifier : classifier)
    (progress_callback : bool) (st : State) (frame_idx : nat) (f : frame)
    : State :=
  let s := stats st in
  let s := mk_stats (frames_procesados s + 1) (jugadores_equipo_0 s)
             (jugadores_equipo_1 s) (porteros_detectados s)
             (arbitros_detectados s) (detecciones_balon s)
             (total_detecciones s) in
  let tr := trace st ++
            (if progress_callback && (frame_idx mod 10 =? 0)
             then [ProgressCallback frame_idx] else []) ++
            [GetDetections f] in
  let detections := get_detections f in
  match detections with
  | [] => mk_state s (byte_track st) (ball_tracker st) (tr ++ [WriteFrame (Raw f)])
  | _ :: _ =>
      let total := (total_detecciones s + len detections)%Z in
      let tr := tr ++ [TrackerUpdate detections] in
      let '(bt, detections) := update_with_detections (byte_track st) detections in
      let '(ball_detections, ball_events) := detect_ball f detections in
      let tr := tr ++ ball_events ++ [BallTrackerUpdate ball_detections] in
      let '(ball_position, ball) := update (ball_tracker st) ball_detections in
      let balon := match ball_position with
                   | Some _ => (detecciones_balon s + 1)%Z
                   | None => detecciones_balon s
                   end in
      let goalkeepers := with_class GOALKEEPER_ID detections in
      let players := with_class PLAYER_ID detections in
      let referees := with_class REFEREE_ID detections in
      let porteros := (porteros_detectados s + len goalkeepers)%Z in
      let arbitros := (arbitros_detectados s + len referees)%Z in
      let '(players_team0, players_team1, eq0, eq1, tr) :=
        if nonempty players then
          let crops := crops_of f players in
          let players_team_id := predict team_classifier crops in
          (mask_select (map (Z.eqb 0) players_team_id) players,
           mask_select (map (Z.eqb 1) players_team_id) players,
           (jugadores_equipo_0 s + count_eq 0 players_team_id)%Z,
           (jugadores_equipo_1 s + count_eq 1 players_team_id)%Z,
           tr ++ [ClassifierPredict crops])
        else ([], [], jugadores_equipo_0 s, jugadores_equipo_1 s, tr) in
      let '(players_team0, players_team1, tr) :=
        if nonempty goalkeepers && nonempty players then
          let players_team0 := map (set_class_id 0) players_team0 in
          let players_team1 := map (set_class_id 1) players_team1 in
          let merged_players := players_team0 ++ players_team1 in
          let goalkeepers_team_id :=
            resolve_goalkeepers_team_id merged_players goalkeepers in
          (players_team0 ++
             mask_select (map (Z.eqb 0) goalkeepers_team_id) goalkeepers,
           players_team1 ++
             mask_select (map (Z.eqb 1) goalkeepers_team_id) goalkeepers,
           tr ++ [ResolveGoalkeepers merged_players goalkeepers])
        else (players_team0, players_team1, tr) in
      mk_state
        (mk_stats (frames_procesados s) eq0 eq1 porteros arbitros balon total)
        bt ball
        (tr ++ [WriteFrame (Annotated f players_team0 players_team1 referees
                              ball_position (buffer ball))])
  end.

Fixpoint process_frames (team_classifier : classifier)
    (progress_callback : bool) (st : State) (frame_idx : nat)
    (frames : list frame) : State :=
  match frames with
  | [] => st
  | f :: rest =>
      process_frames team_classifier progress_callback
        (process_frame team_classifier progress_callback st frame_idx f)
        (S frame_idx) rest
  end.

(** [process_video]; [fresh] is the ByteTrack state after [reset].
    [max_frames] is falsy when [None] or zero.  [None] is the exception
    of the frame generator, raised when the loop asks for its first
    frame. *)
Definition process_video (video : list frame) (fresh : tracker)
    (team_classifier : classifier) (start_frame : nat)
    (max_frames : option nat) (progress_callback : bool) : option State :=
  let end_ := match max_frames with
              | Some (S m) => Some (start_frame + S m)
              | _ => None
              end in
  match get_video_frames_generator video 1 start_frame end_ with
  | None => None
  | Some frame_generator =>
      Some (process_frames team_classifier progress_callback
              (mk_state stats0 fresh (reset (init 30)) [])
              0 frame_generator)
  end.

(** The analysis in [app.py]'s [main]: train the classifier, then
    process the video.  The training call is not inside any [try]; an
    exception of [process_video] is caught and shown as an error. *)
Inductive run_result : Type :=
| FitRaised
| ProcessRaised
| Processed (st : State).

Definition main_analysis (video : list frame) (fresh : tracker)
    (start_frame : nat) (max_frames : option nat) : run_result :=
  match create_team_classifier video 30 500 with
  | None => FitRaised
  | Some team_classifier =>
      match process_video video fresh team_classifier
              start_frame max_frames true with
      | None => ProcessRaised
      | Some st => Processed st
      end
  end.

End Pipeline.

End Processor.

(* ===================================================================== *)
(** ** Concrete frames and collaborators *)
(* ===================================================================== *)

Module Scenarios.
Import Geometry Detectors Trackers Processor.

Definition box (a b c d : Z) : bbox :=
  mk_bbox (inject_Z a) (inject_Z b) (inject_Z c) (inject_Z d).

Definition det (b : bbox) (c : Z) : Detection :=
  mk_detection b (9 # 10)%Q c None.

(** Two ball candidates, centred at (5,5) and at (105,105). *)
Definition ball_a : Detection := det (box 0 0 10 10) BALL_ID.
Definition ball_b : Detection := det (box 100 100 110 110) BALL_ID.

(** A tracker whose last position is (104,104). *)
Definition tracker_near_b : BallTracker :=
  mk_ball_tracker 30 [(104 # 1, 104 # 1)%Q] (Some (104 # 1, 104 # 1)%Q).

(** Labeled players: team 0 anchored at (0,0), team 1 at (100,100). *)
Definition player_team0 : Detection := det (box (-10) (-20) 10 0) 0.
Definition player_team1 : Detection := det (box 90 80 110 100) 1.

(** Goalkeepers anchored at (5,5), at (95,95) and at (50,50). *)
Definition gk_5_5 : Detection := det (box 0 (-5) 10 5) GOALKEEPER_ID.
Definition gk_95_95 : Detection := det (box 90 85 100 95) GOALKEEPER_ID.
Definition gk_50_50 : Detection := det (box 40 30 60 50) GOALKEEPER_ID.

(** Raw detections of the general detector. *)
Definition raw_player_a : Detection := det (box 0 0 20 40) PLAYER_ID.
Definition raw_player_b : Detection := det (box 200 0 220 40) PLAYER_ID.

(** A frame is what the two detectors answer on it: the detections of
    the general detector, and the answer of the ball model, [None] when
    its prediction raises. *)
Record scene : Type := mk_scene {
  seen : Detections;
  ball_seen : option Detections
}.

Definition no_nms (threshold : Q) (class_agnostic : bool)
    (detections : Detections) : Detections := detections.

(** A tracker that keeps every detection and numbers them. *)
Fixpoint number_from (n : Z) (detections : Detections) : Detections :=
  match detections with
  | [] => []
  | d :: rest =>
      mk_detection (xyxy d) (confidence d) (class_id d) (Some n)
        :: number_from (n + 1) rest
  end.

Definition numbering_tracker (next : Z) (detections : Detections)
    : Z * Detections :=
  ((next + len detections)%Z, number_from next detections).

(** A classifier handle with a fit that raises on no crops and a
    predict that answers team 0 for every crop. *)
Definition stub_fit (crops : list (crop scene)) : option unit :=
  match crops with [] => None | _ :: _ => Some tt end.

Definition stub_predict (c : unit) (crops : list (crop scene)) : list Z :=
  map (fun _ => 0%Z) crops.

Definition stub_process_frame (ball_yolo : option (scene -> option Detections))
    : State scene Z -> nat -> scene -> State scene Z :=
  process_frame scene Z unit seen no_nms numbering_tracker ball_yolo
    stub_predict tt false.

Definition state0 : State scene Z :=
  mk_state scene Z stats0 1%Z (reset (init 30)) [].

(** No detection from the general detector while the ball model sees a
    ball. *)
Definition only_ball_model : scene := mk_scene [] (Some [ball_a]).

(** A ball and a player from the general detector; the ball model raises. *)
Definition ball_and_player : scene := mk_scene [ball_a; raw_player_a] None.

(** Two players in one frame. *)
Definition two_players : scene := mk_scene [raw_player_a; raw_player_b] None.

(** A frame without any player. *)
Definition no_player : scene := mk_scene [ball_a] None.

(** A tracker whose last position is (100,100), and two ball candidates
    centred at (1619.5,139) and at (1620,101). *)
Definition tracker_at_100 : BallTracker :=
  mk_ball_tracker 30 [(100 # 1, 100 # 1)%Q] (Some (100 # 1, 100 # 1)%Q).
Definition ball_far : Detection :=
  det (mk_bbox (3229 # 2) (134 # 1) (3249 # 2) (144 # 1)) BALL_ID.
Definition ball_near : Detection := det (box 1615 96 1625 106) BALL_ID.

(** One labeled player per team, anchored at (100,539) and at
    (100.5,501), and a goalkeeper anchored at (1620,540). *)
Definition player_100_539 : Detection := det (box 90 500 110 539) 0.
Definition player_1005_501 : Detection :=
  det (mk_bbox (181 # 2) (460 # 1) (221 # 2) (501 # 1)) 1.
Definition gk_1620_540 : Detection := det (box 1610 500 1630 540) GOALKEEPER_ID.

(** Three labeled players per team on the line y = 100, at x = 510, 510,
    511 and at x = 513, 514, 514, and a goalkeeper anchored at (512,100),
    at equal distance from the two exact means. *)
Definition tie_players : Detections :=
  [det (box 500 0 520 100) 0; det (box 500 0 520 100) 0;
   det (box 501 0 521 100) 0;
   det (box 503 0 523 100) 1; det (box 504 0 524 100) 1;
   det (box 504 0 524 100) 1].
Definition gk_512_100 : Detection := det (box 502 0 522 100) GOALKEEPER_ID.

(** A tracker that confirms no track yet and returns no detection, as
    ByteTrack does on the first frames of a run. *)
Definition dropping_tracker (t : Z) (detections : Detections)
    : Z * Detections := (t, []).

End Scenarios.

(* ===================================================================== *)
(** ** utils/trackers.py: BallAnnotator *)
(* ===================================================================== *)

Module Annotators.
Import Geometry Detectors.

(** A BGR colour and an integer pixel position. *)
Definition color : Type := (Z * Z * Z)%type.
Definition pixel : Type := (Z * Z)%type.

(** What the OpenCV calls of [annotate] put on the copy of the frame;
    a thickness of [-1] fills the circle. *)
Inductive drawing : Type :=
| Line (p1 p2 : pixel) (c : color) (thickness : Z)
| Circle (centre : pixel) (r : Z) (c : color) (thickness : Z).

Record BallAnnotator : Type := mk_ball_annotator {
  radius : Z;
  ball_color : color;
  trail_color : color
}.

(** Python's [int] on a float: truncation toward zero. *)
Definition int (q : Q) : Z := Z.quot (Qnum q) (Zpos (Qden q)).

(** [map(int, position)] *)
Definition to_pixel (p : point) : pixel := (int (fst p), int (snd p)).

(** The body of the trail loop at index [i]. *)
Definition trail_segment (a : BallAnnotator) (trail_buffer : list (option point))
    (i : nat) : list drawing :=
  match nth_error trail_buffer (i - 1), nth_error trail_buffer i with
  | Some (Some p1), Some (Some p2) =>
      let alpha :=
        (inject_Z (Z.of_nat i) / inject_Z (Z.of_nat (length trail_buffer)))%Q in
      let thickness := Z.max 2 (int (4 * alpha)) in
      [Line (to_pixel p1) (to_pixel p2) (trail_color a) thickness]
  | _, _ => []
  end.

(** [BallAnnotator.annotate]: the drawings made on the copy of the frame,
    in the order they are made. *)
Definition annotate (a : BallAnnotator) (position : option point)
    (trail_buffer : list (option point)) : list drawing :=
  flat_map (trail_segment a trail_buffer) (seq 1 (length trail_buffer - 1)) ++
  match position with
  | Some p =>
      [Circle (to_pixel p) (radius a + 2) (255, 255, 255)%Z (-1);
       Circle (to_pixel p) (radius a) (ball_color a) (-1);
       Circle (to_pixel p) (radius a) (0, 0, 0)%Z 1]
  | None => []
  end.

End Annotators.

(* ===================================================================== *)
(** ** app.py: the frame range and the ball percentage *)
(* ===================================================================== *)

Module App.
Import Processor.

(** The frame range computed in [main]: [start_req] is
    [int(start_sec * fps)] and [max_req] is [int(duration_sec * fps)].
    [None] is the early return on a start beyond the video. *)
Definition plan_frames (process_full : bool) (total_frames : nat)
    (start_req max_req : nat) : option (nat * option nat) :=
  let '(start_frame, max_frames) :=
    if process_full then
      (0, if 600 <? total_frames then Some 600 else None)
    else
      (start_req, Some (if 600 <? max_req then 600 else max_req)) in
  if total_frames <=? start_frame then None
  else Some (start_frame, max_frames).

(** The ball detection percentage shown with the statistics. *)
Definition ball_percent (s : Stats) : Q :=
  if (0 <? frames_procesados s)%Z
  then (inject_Z (detecciones_balon s) / inject_Z (frames_procesados s) * 100)%Q
  else 0%Q.

End App.

(* ===================================================================== *)
(** ** Facts about the geometry *)
(* ===================================================================== *)

Import Geometry Detectors Trackers Processor Scenarios.
Import Annotators App.

Lemma Qltb_lt (a b : Q) : Qltb a b = true <-> (a < b)%Q.
Proof.
  unfold Qltb. rewrite negb_true_iff. split; intro H.
  - apply Qnot_le_lt. intro Hle. apply Qle_bool_iff in Hle. congruence.
  - destruct (Qle_bool b a) eqn:E; [|reflexivity].
    apply Qle_bool_iff in E. exfalso. exact (Qlt_not_le _ _ H E).
Qed.

Lemma norm_sq_nonneg (v : point) : (0 <= norm_sq v)%Q.
Proof.
  unfold norm_sq. destruct v as [a b]. simpl.
  assert (Ha : (0 <= a * a)%Q) by (destruct (Qlt_le_dec a 0);
    [ setoid_replace (a * a)%Q with ((- a) * (- a))%Q by ring;
      apply Qmult_le_0_compat; apply (Qopp_le_compat a 0); apply Qlt_le_weak; assumption
    | apply Qmult_le_0_compat; assumption ]).
  assert (Hb : (0 <= b * b)%Q) by (destruct (Qlt_le_dec b 0);
    [ setoid_replace (b * b)%Q with ((- b) * (- b))%Q by ring;
      apply Qmult_le_0_compat; apply (Qopp_le_compat b 0); apply Qlt_le_weak; assumption
    | apply Qmult_le_0_compat; assumption ]).
  replace 0%Q with (0 + 0)%Q by reflexivity.
  apply Qplus_le_compat; assumption.
Qed.

(** Comparing norms is comparing their squares. *)
Lemma norm_lt_iff_sq (u v : point) :
  (norm u < norm v)%R <-> (norm_sq u < norm_sq v)%Q.
Proof.
  unfold norm. split; intro H.
  - apply Rlt_Qlt. apply sqrt_lt_0_alt. exact H.
  - apply sqrt_lt_1_alt. split.
    + replace 0%R with (Q2R 0) by (unfold Q2R; simpl; lra).
      apply Qle_Rle. apply norm_sq_nonneg.
    + apply Qlt_Rlt. exact H.
Qed.

Lemma norm_le_iff_sq (u v : point) :
  (norm u <= norm v)%R <-> (norm_sq u <= norm_sq v)%Q.
Proof.
  split; intro H.
  - apply Qnot_lt_le. intro Hlt. apply norm_lt_iff_sq in Hlt. lra.
  - apply Rnot_lt_le. intro Hlt. apply norm_lt_iff_sq in Hlt.
    exact (Qlt_not_le _ _ Hlt H).
Qed.

(** The rounded operations do not depend on how a rational is written. *)
Lemma round32_compat (q q' : Q) : (q == q')%Q -> round32 q = round32 q'.
Proof. intro H. unfold round32. rewrite (Qred_complete q q' H). reflexivity. Qed.

Lemma fsub32_compat (a a' b b' : Q) :
  (a == a')%Q -> (b == b')%Q -> fsub32 a b = fsub32 a' b'.
Proof. intros Ha Hb. apply round32_compat. rewrite Ha, Hb. reflexivity. Qed.

Lemma dist32_compat (p p' q q' : point) :
  (fst p == fst p')%Q -> (snd p == snd p')%Q ->
  (fst q == fst q')%Q -> (snd q == snd q')%Q ->
  dist32 p q = dist32 p' q'.
Proof.
  intros H1 H2 H3 H4. unfold dist32, psub32. cbn [fst snd].
  rewrite (fsub32_compat _ _ _ _ H1 H3), (fsub32_compat _ _ _ _ H2 H4).
  reflexivity.
Qed.

(** The rounding, the four operations and the root agree with the
    Standard Library's IEEE 754 operations at the [float32] format on
    sample values: thirds, values that need rounding at 24 bits, a
    negative number and a tie. *)
Lemma float32_agrees_with_ieee :
  round32 (1531 # 3) = sf_to_Q (sf_of_Q (1531 # 3)) /\
  round32 (- (7 # 3)) = sf_to_Q (sf_of_Q (- (7 # 3))) /\
  round32 (16777217 # 1) = sf_to_Q (sf_of_Z 16777217) /\
  round32 (16777219 # 1) = sf_to_Q (sf_of_Z 16777219) /\
  fadd32 (round32 (1 # 3)) (round32 (1000001 # 7)) =
    sf_to_Q (SFadd 24 128 (sf_of_Q (1 # 3)) (sf_of_Q (1000001 # 7))) /\
  fsub32 (512 # 1) (round32 (1531 # 3)) =
    sf_to_Q (SFsub 24 128 (sf_of_Z 512) (sf_of_Q (1531 # 3))) /\
  fmul32 (round32 (1 # 3)) (round32 (1 # 3)) =
    sf_to_Q (SFmul 24 128 (sf_of_Q (1 # 3)) (sf_of_Q (1 # 3))) /\
  fdiv32 (1541 # 1) (3 # 1) =
    sf_to_Q (SFdiv 24 128 (sf_of_Z 1541) (sf_of_Z 3)) /\
  sqrt32 (2310401 # 1) = sf_to_Q (SFsqrt 24 128 (sf_of_Z 2310401)) /\
  sqrt32 (9241605 # 4) = sf_to_Q (SFsqrt 24 128 (sf_of_Q (9241605 # 4))) /\
  sqrt32 (round32 (1 # 3)) = sf_to_Q (SFsqrt 24 128 (sf_of_Q (1 # 3))).
Proof. vm_compute. repeat split. Qed.

(* ===================================================================== *)
(** ** BallTracker *)
(* ===================================================================== *)

Lemma argmin_lt_length (l : list Q) : l <> [] -> argmin l < length l.
Proof.
  induction l as [|d l' IH]; intro Hne; [congruence|].
  destruct l' as [|e l'']; [simpl; lia|].
  change (argmin (d :: e :: l'')) with
    (if Qle_bool d (nth (argmin (e :: l'')) (e :: l'') 0%Q)
     then 0 else S (argmin (e :: l''))).
  assert (argmin (e :: l'') < length (e :: l'')) by (apply IH; discriminate).
  destruct (Qle_bool _ _); simpl in *; lia.
Qed.

Lemma argmin_min (l : list Q) (j : nat) :
  j < length l -> (nth (argmin l) l 0 <= nth j l 0)%Q.
Proof.
  revert j. induction l as [|d l' IH]; intros j Hj; [simpl in Hj; lia|].
  destruct l' as [|e l''].
  - destruct j; [apply Qle_refl | simpl in Hj; lia].
  - change (argmin (d :: e :: l'')) with
      (if Qle_bool d (nth (argmin (e :: l'')) (e :: l'') 0%Q)
       then 0 else S (argmin (e :: l''))).
    destruct (Qle_bool d (nth (argmin (e :: l'')) (e :: l'') 0%Q)) eqn:E.
    + destruct j as [|k]; [apply Qle_refl|].
      apply Qle_bool_iff in E.
      change (nth 0 (d :: e :: l'') 0%Q) with d.
      change (nth (S k) (d :: e :: l'') 0%Q) with (nth k (e :: l'') 0%Q).
      eapply Qle_trans; [exact E|]. apply IH. simpl in *; lia.
    + change (nth (S (argmin (e :: l''))) (d :: e :: l'') 0%Q)
        with (nth (argmin (e :: l'')) (e :: l'') 0%Q).
      destruct j as [|k].
      * change (nth 0 (d :: e :: l'') 0%Q) with d.
        apply Qlt_le_weak. apply Qnot_le_lt. intro Hle.
        apply Qle_bool_iff in Hle. congruence.
      * change (nth (S k) (d :: e :: l'') 0%Q) with (nth k (e :: l'') 0%Q).
        apply IH. simpl in *; lia.
Qed.

(** The entry selected by [argmin] over the values of [f] is an entry
    of the list and no other entry has a smaller value. *)
Lemma nearest_candidate (f : point -> Q) (xy : list point) :
  xy <> [] ->
  let p := nth (argmin (map f xy)) xy (0, 0)%Q in
  In p xy /\ forall q, In q xy -> (f p <= f q)%Q.
Proof.
  intros Hne p.
  assert (Hlen : argmin (map f xy) < length xy).
  { rewrite <- (length_map f). apply argmin_lt_length.
    destruct xy; [congruence | discriminate]. }
  split; [apply nth_In; exact Hlen|].
  intros q Hq. apply (In_nth _ _ (0, 0)%Q) in Hq. destruct Hq as [j [Hj Hq]].
  subst q. unfold p.
  rewrite <- !(map_nth f).
  rewrite (nth_indep (map f xy) (f (0, 0)%Q) 0%Q) by (rewrite length_map; exact Hlen).
  rewrite (nth_indep (map f xy) (f (0, 0)%Q) 0%Q (n := j)) by (rewrite length_map; exact Hj).
  apply argmin_min. rewrite length_map. exact Hj.
Qed.

(** C4, as the code has it.  [BallTracker.update]: with no candidate it
    returns [None] and leaves the tracker, its trail buffer included, as
    it was; with candidates and no last position it adopts and returns
    the centre of the first candidate; with candidates and a last
    position it adopts and returns a candidate centre whose distance to
    the last position, as computed in [float32], is minimal among the
    computed distances of all candidate centres. *)
Theorem ball_tracker_update_spec (t : BallTracker) (detections : Detections) :
  (detections = [] -> update t detections = (None, t)) /\
  (forall d rest, detections = d :: rest -> last_position t = None ->
     fst (update t detections) = Some (center (xyxy d)) /\
     last_position (snd (update t detections)) = Some (center (xyxy d))) /\
  (forall last, detections <> [] -> last_position t = Some last ->
     exists p,
       fst (update t detections) = Some p /\
       last_position (snd (update t detections)) = Some p /\
       In p (get_anchors_coordinates center detections) /\
       forall q, In q (get_anchors_coordinates center detections) ->
                 (dist32 p last <= dist32 q last)%Q).
Proof.
  split; [|split].
  - intros ->. reflexivity.
  - intros d rest -> Hlast. unfold update. rewrite Hlast. simpl. split; reflexivity.
  - intros last Hne Hlast.
    destruct detections as [|d rest]; [congruence|].
    unfold update. rewrite Hlast. cbv zeta.
    set (xy := get_anchors_coordinates center (d :: rest)).
    assert (Hxy : xy <> []) by (unfold xy; simpl; discriminate).
    destruct (nearest_candidate (fun p => norm32 (psub32 p last)) xy Hxy)
      as [Hin Hmin].
    eexists. split; [reflexivity|]. split; [reflexivity|].
    split; [exact Hin|].
    intros q Hq. apply Hmin. exact Hq.
Qed.

(** C4 as stated fails: with the last position at (100,100) and
    candidates centred at (1619.5,139) and at (1620,101), the two
    computed distances round to the same [float32], [argmin] keeps the
    first, and [update] adopts (1619.5,139) although (1620,101) is
    strictly nearer in Euclidean distance. *)
Lemma update_adopts_farther_candidate :
  last_position tracker_at_100 = Some (100 # 1, 100 # 1)%Q /\
  fst (update tracker_at_100 [ball_far; ball_near]) = Some (center (xyxy ball_far)) /\
  In (center (xyxy ball_near))
     (get_anchors_coordinates center [ball_far; ball_near]) /\
  (norm (psub (center (xyxy ball_near)) (100 # 1, 100 # 1)%Q) <
   norm (psub (center (xyxy ball_far)) (100 # 1, 100 # 1)%Q))%R.
Proof.
  split; [reflexivity|]. split; [vm_compute; reflexivity|].
  split; [right; left; reflexivity|].
  apply norm_lt_iff_sq. vm_compute. reflexivity.
Qed.

Lemma tl_skipn {A : Type} (k : nat) (l : list A) :
  tl (skipn k l) = skipn (S k) l.
Proof.
  revert l. induction k as [|k IH]; intros [|x l]; try reflexivity.
  simpl skipn at 1. rewrite IH. reflexivity.
Qed.

(** The deque holds the last [m] elements of everything appended so far. *)
Lemma deque_append_history {A : Type} (m : nat) (h : list A) (x : A) :
  deque_append m (skipn (length h - m) h) x =
  skipn (length (h ++ [x]) - m) (h ++ [x]).
Proof.
  unfold deque_append. rewrite length_app, length_app, length_skipn. simpl.
  destruct (Nat.ltb_spec m (length h - (length h - m) + 1)) as [Hlt | Hge].
  - assert (Hm : m <= length h) by lia.
    replace (length h + 1 - m) with (S (length h - m)) by lia.
    rewrite <- tl_skipn. f_equal.
    rewrite skipn_app. replace (length h - m - length h) with 0 by lia.
    reflexivity.
  - assert (Hm : length h < m) by lia.
    replace (length h - m) with 0 by lia.
    replace (length h + 1 - m) with 0 by lia. reflexivity.
Qed.

Lemma update_single (t : BallTracker) (d : Detection) :
  update t [d] =
  (Some (center (xyxy d)),
   mk_ball_tracker (maxlen t)
     (deque_append (maxlen t) (buffer t) (center (xyxy d)))
     (Some (center (xyxy d)))).
Proof. unfold update. destruct (last_position t); reflexivity. Qed.

(** Frames with one ball detection each: the buffer is the tail of the
    sequence of their centres, oldest first. *)
Lemma updates_single_history (ds : list Detection) :
  forall (t : BallTracker) (h : list point),
    buffer t = skipn (length h - maxlen t) h ->
    let h' := h ++ map (fun d => center (xyxy d)) ds in
    buffer (updates t (map (fun d => [d]) ds)) = skipn (length h' - maxlen t) h' /\
    maxlen (updates t (map (fun d => [d]) ds)) = maxlen t.
Proof.
  induction ds as [|d ds IH]; intros t h Hb; cbv zeta.
  - simpl. rewrite app_nil_r. split; [exact Hb | reflexivity].
  - cbn [map updates]. rewrite update_single. cbn [snd].
    set (c := center (xyxy d)).
    destruct (IH (mk_ball_tracker (maxlen t)
        (deque_append (maxlen t) (buffer t) c) (Some c)) (h ++ [c]))
      as [IHb IHm].
    + cbn [buffer maxlen]. rewrite Hb. apply deque_append_history.
    + cbn [maxlen] in IHb, IHm. rewrite <- app_assoc in IHb.
      split; [exact IHb | exact IHm].
Qed.

Lemma skipn_repeat {A : Type} (x : A) (k n : nat) :
  skipn k (repeat x n) = repeat x (n - k).
Proof.
  revert k. induction n as [|n IH]; intros [|k]; try reflexivity.
  simpl. apply IH.
Qed.

(** C5.  A tracker created with capacity 30 that is updated with one
    ball detection per frame holds the centres of the last 30 of them,
    oldest first: a new centre is appended at the end and, once 30 are
    held, the oldest is evicted.  So after [N] consecutive updates that
    each carry the same single detection, the trail buffer holds exactly
    [min N 30] entries, all equal to the centre of that detection. *)
Theorem trail_buffer_same_position (d : Detection) (N : nat) (ds : list Detection) :
  buffer (updates (init 30) (repeat [d] N)) =
    repeat (center (xyxy d)) (Nat.min N 30) /\
  buffer (updates (init 30) (map (fun d => [d]) ds)) =
    skipn (length ds - 30) (map (fun d => center (xyxy d)) ds) /\
  forall t c,
    length (buffer t) <= maxlen t ->
    buffer (snd (update t [c])) =
      if length (buffer t) <? maxlen t
      then buffer t ++ [center (xyxy c)]
      else tl (buffer t ++ [center (xyxy c)]).
Proof.
  split; [|split].
  - assert (Hrep : repeat [d] N = map (fun d => [d]) (repeat d N)).
    { induction N; simpl; [reflexivity | f_equal; assumption]. }
    rewrite Hrep.
    destruct (updates_single_history (repeat d N) (init 30) []) as [Hb _];
      [reflexivity|].
    rewrite Hb. simpl app. simpl maxlen.
    replace (map (fun d0 => center (xyxy d0)) (repeat d N))
      with (repeat (center (xyxy d)) N)
      by (clear; induction N; simpl; [reflexivity | f_equal; assumption]).
    rewrite repeat_length, skipn_repeat. f_equal. lia.
  - destruct (updates_single_history ds (init 30) []) as [Hb _]; [reflexivity|].
    rewrite Hb. cbn [app maxlen init]. rewrite length_map. reflexivity.
  - intros t c Hlen. rewrite update_single. cbn [snd buffer].
    unfold deque_append. rewrite length_app. simpl length.
    destruct (Nat.ltb_spec (maxlen t) (length (buffer t) + 1));
      destruct (Nat.ltb_spec (length (buffer t)) (maxlen t)); try lia;
      reflexivity.
Qed.

Lemma trail_buffer_same_position_witness :
  length (buffer tracker_near_b) <= maxlen tracker_near_b /\
  buffer (snd (update tracker_near_b [ball_a])) =
    [(104 # 1, 104 # 1)%Q; center (xyxy ball_a)].
Proof.
  split; [simpl; lia|].
  rewrite (proj2 (proj2 (trail_buffer_same_position ball_a 0 []))
             tracker_near_b ball_a) by (simpl; lia).
  reflexivity.
Defined.

Lemma ball_tracker_update_spec_witness :
  update (init 30) [] = (None, init 30) /\
  (fst (update (init 30) [ball_a; ball_b]) = Some (center (xyxy ball_a)) /\
   last_position (snd (update (init 30) [ball_a; ball_b])) =
     Some (center (xyxy ball_a))) /\
  exists p,
    fst (update tracker_near_b [ball_a; ball_b]) = Some p /\
    last_position (snd (update tracker_near_b [ball_a; ball_b])) = Some p /\
    In p (get_anchors_coordinates center [ball_a; ball_b]) /\
    forall q, In q (get_anchors_coordinates center [ball_a; ball_b]) ->
              (dist32 p (104 # 1, 104 # 1)%Q <= dist32 q (104 # 1, 104 # 1)%Q)%Q.
Proof.
  split; [|split].
  - apply (proj1 (ball_tracker_update_spec (init 30) [])). reflexivity.
  - apply (proj1 (proj2 (ball_tracker_update_spec (init 30) [ball_a; ball_b]))
             ball_a [ball_b]); reflexivity.
  - apply (proj2 (proj2 (ball_tracker_update_spec tracker_near_b [ball_a; ball_b]))
             (104 # 1, 104 # 1)%Q); [discriminate | reflexivity].
Defined.

(* ===================================================================== *)
(** ** resolve_goalkeepers_team_id *)
(* ===================================================================== *)

Lemma team_xy_with_class (c : Z) (players : Detections) :
  team_xy c players = get_anchors_coordinates bottom_center (with_class c players).
Proof.
  unfold team_xy, with_class, get_anchors_coordinates.
  induction players as [|d ps IH]; [reflexivity|].
  simpl. destruct (Z.eqb (class_id d) c); simpl; rewrite IH; reflexivity.
Qed.

(** With a centroid for each team the label of a goalkeeper is decided by
    the strict comparison of the two computed distances. *)
Lemma resolve_defined (players goalkeepers : Detections) :
  team_xy 0 players <> [] -> team_xy 1 players <> [] ->
  resolve_goalkeepers_team_id players goalkeepers =
  map (fun gk =>
         if Qltb (dist32 (bottom_center (xyxy gk)) (mean_point (team_xy 0 players)))
                 (dist32 (bottom_center (xyxy gk)) (mean_point (team_xy 1 players)))
         then 0%Z else 1%Z)
      goalkeepers.
Proof.
  intros H0 H1. unfold resolve_goalkeepers_team_id, get_anchors_coordinates.
  rewrite map_map. unfold mean_axis0.
  destruct (team_xy 0 players) as [|a0 l0]; [congruence|].
  destruct (team_xy 1 players) as [|a1 l1]; [congruence|].
  apply map_ext. intro gk.
  cbv beta zeta iota delta [fnorm fpsub to_fpoint fsub fadd fmul fsqrt flt
                            dist32 norm32 psub32 fst snd].
  reflexivity.
Qed.

Lemma flt_nan_r (a : float) : flt a NaN = false.
Proof. destruct a; reflexivity. Qed.

(** An undefined centroid makes both comparisons with it false: whichever
    team is empty, every goalkeeper gets label 1. *)
Lemma resolve_undefined (players goalkeepers : Detections) :
  team_xy 0 players = [] \/ team_xy 1 players = [] ->
  resolve_goalkeepers_team_id players goalkeepers = map (fun _ => 1%Z) goalkeepers.
Proof.
  intros H. unfold resolve_goalkeepers_team_id, get_anchors_coordinates.
  rewrite map_map. apply map_ext. intros gk.
  destruct H as [H | H]; rewrite H; cbn [mean_axis0].
  - cbv beta zeta iota delta [fnorm fpsub to_fpoint fsub fadd fmul fsqrt flt fst snd].
    reflexivity.
  - cbv beta zeta iota delta [fnorm fpsub to_fpoint fsub fadd fmul fsqrt fst snd].
    rewrite flt_nan_r. reflexivity.
Qed.

(** C1, as the code has it.  When team 0 has no labeled player the
    resolver raises nothing: the centroid of team 0 is [nan], the strict
    comparison with it is false, and every goalkeeper of the frame gets
    label 1, the label of the team that does have labeled players. *)
Theorem resolve_team0_empty (players goalkeepers : Detections) :
  team_xy 0 players = [] ->
  resolve_goalkeepers_team_id players goalkeepers = map (fun _ => 1%Z) goalkeepers.
Proof. intro H. apply resolve_undefined. left. exact H. Qed.

Lemma resolve_team0_empty_witness :
  team_xy 0 [player_team1] = [] /\
  resolve_goalkeepers_team_id [player_team1] [gk_5_5; gk_95_95] = [1%Z; 1%Z].
Proof.
  split; [reflexivity|].
  apply (resolve_team0_empty [player_team1] [gk_5_5; gk_95_95]). reflexivity.
Defined.

(** C1 as stated fails: with labeled players on team 0 only, the resolver
    returns normally and gives the goalkeeper label 1, the label of the
    team without any labeled player, instead of label 0. *)
Lemma undefined_centroid_mislabels :
  team_xy 0 [player_team0] <> [] /\
  team_xy 1 [player_team0] = [] /\
  resolve_goalkeepers_team_id [player_team0] [gk_5_5] = [1%Z] /\
  resolve_goalkeepers_team_id [player_team0] [gk_5_5] <> map (fun _ => 0%Z) [gk_5_5].
Proof.
  split; [discriminate|]. split; [reflexivity|].
  split; [vm_compute; reflexivity | vm_compute; discriminate].
Qed.

(** C6, as the code has it.  With at least one labeled player on each
    team, a goalkeeper gets label 0 exactly when the distance from its
    bottom-centre anchor to the centroid of team 0 is strictly smaller
    than the distance to the centroid of team 1, and label 1 otherwise,
    where the centroids (the mean bottom-centre anchor of each team) and
    the distances are the [float32] values the code computes.  With the
    centroids at (0,0) and (100,100), a goalkeeper anchored at (5,5) gets
    label 0 and one at (95,95) label 1. *)
Theorem resolve_nearer_centroid
    (players goalkeepers : Detections) (i : nat) (gk : Detection) :
  team_xy 0 players <> [] ->
  team_xy 1 players <> [] ->
  nth_error goalkeepers i = Some gk ->
  let g := bottom_center (xyxy gk) in
  let c0 := mean_point (team_xy 0 players) in
  let c1 := mean_point (team_xy 1 players) in
  let label := nth_error (resolve_goalkeepers_team_id players goalkeepers) i in
  ((dist32 g c0 < dist32 g c1)%Q -> label = Some 0%Z) /\
  ((dist32 g c1 <= dist32 g c0)%Q -> label = Some 1%Z) /\
  ((fst c0 == 0)%Q /\ (snd c0 == 0)%Q ->
   (fst c1 == 100 # 1)%Q /\ (snd c1 == 100 # 1)%Q ->
   ((fst g == 5 # 1)%Q /\ (snd g == 5 # 1)%Q -> label = Some 0%Z) /\
   ((fst g == 95 # 1)%Q /\ (snd g == 95 # 1)%Q -> label = Some 1%Z)).
Proof.
  intros H0 H1 Hgk g c0 c1 label.
  assert (Hlabel : label =
    Some (if Qltb (dist32 g c0) (dist32 g c1) then 0%Z else 1%Z)).
  { unfold label. rewrite (resolve_defined players goalkeepers H0 H1).
    rewrite nth_error_map, Hgk. reflexivity. }
  assert (Hlt0 : (dist32 g c0 < dist32 g c1)%Q -> label = Some 0%Z).
  { intro H. apply Qltb_lt in H. rewrite Hlabel, H. reflexivity. }
  assert (Hle1 : (dist32 g c1 <= dist32 g c0)%Q -> label = Some 1%Z).
  { intro H. rewrite Hlabel.
    destruct (Qltb (dist32 g c0) (dist32 g c1)) eqn:E; [|reflexivity].
    apply Qltb_lt in E. exfalso. exact (Qlt_not_le _ _ E H). }
  split; [exact Hlt0|]. split; [exact Hle1|].
  intros [Ha0 Hb0] [Ha1 Hb1]. split; intros [Hg1 Hg2].
  - apply Hlt0.
    rewrite (dist32_compat g (5 # 1, 5 # 1)%Q c0 (0, 0)%Q Hg1 Hg2 Ha0 Hb0).
    rewrite (dist32_compat g (5 # 1, 5 # 1)%Q c1 (100 # 1, 100 # 1)%Q Hg1 Hg2 Ha1 Hb1).
    vm_compute. reflexivity.
  - apply Hle1.
    rewrite (dist32_compat g (95 # 1, 95 # 1)%Q c0 (0, 0)%Q Hg1 Hg2 Ha0 Hb0).
    rewrite (dist32_compat g (95 # 1, 95 # 1)%Q c1 (100 # 1, 100 # 1)%Q Hg1 Hg2 Ha1 Hb1).
    vm_compute. discriminate.
Qed.

Lemma resolve_nearer_centroid_witness :
  team_xy 0 [player_team0; player_team1] <> [] /\
  team_xy 1 [player_team0; player_team1] <> [] /\
  nth_error (resolve_goalkeepers_team_id [player_team0; player_team1]
               [gk_5_5; gk_95_95]) 0 = Some 0%Z /\
  nth_error (resolve_goalkeepers_team_id [player_team0; player_team1]
               [gk_5_5; gk_95_95]) 1 = Some 1%Z.
Proof.
  split; [discriminate|]. split; [discriminate|]. split.
  - apply (proj2 (proj2 (resolve_nearer_centroid [player_team0; player_team1]
              [gk_5_5; gk_95_95] 0 gk_5_5
              ltac:(discriminate) ltac:(discriminate) eq_refl)));
      vm_compute; repeat split.
  - apply (proj2 (proj2 (resolve_nearer_centroid [player_team0; player_team1]
              [gk_5_5; gk_95_95] 1 gk_95_95
              ltac:(discriminate) ltac:(discriminate) eq_refl)));
      vm_compute; repeat split.
Defined.

(** C6 as stated fails: with one labeled player per team, anchored at
    (100,539) and at (100.5,501), the goalkeeper anchored at (1620,540)
    is strictly nearer to the centroid of team 0 in Euclidean distance,
    but the two computed distances round to the same [float32] and the
    goalkeeper gets label 1. *)
Lemma rounding_hides_nearer_centroid :
  team_xy 0 [player_100_539; player_1005_501] = [(100 # 1, 539 # 1)%Q] /\
  team_xy 1 [player_100_539; player_1005_501] = [(201 # 2, 501 # 1)%Q] /\
  bottom_center (xyxy gk_1620_540) = (1620 # 1, 540 # 1)%Q /\
  (norm (psub (1620 # 1, 540 # 1)%Q (100 # 1, 539 # 1)%Q) <
   norm (psub (1620 # 1, 540 # 1)%Q (201 # 2, 501 # 1)%Q))%R /\
  resolve_goalkeepers_team_id [player_100_539; player_1005_501] [gk_1620_540] =
    [1%Z].
Proof.
  split; [vm_compute; reflexivity|]. split; [vm_compute; reflexivity|].
  split; [vm_compute; reflexivity|]. split.
  - apply norm_lt_iff_sq. vm_compute. reflexivity.
  - vm_compute. reflexivity.
Qed.

(** C10, as the code has it.  The comparison is strict on the computed
    [float32] distances: with a centroid for each team, a goalkeeper gets
    label 0 exactly when its computed distance to the centroid of team 0
    is strictly smaller, so a goalkeeper whose two computed distances are
    equal gets label 1. *)
Theorem resolve_tie_is_team1
    (players goalkeepers : Detections) (i : nat) (gk : Detection) :
  team_xy 0 players <> [] ->
  team_xy 1 players <> [] ->
  nth_error goalkeepers i = Some gk ->
  let g := bottom_center (xyxy gk) in
  let c0 := mean_point (team_xy 0 players) in
  let c1 := mean_point (team_xy 1 players) in
  let label := nth_error (resolve_goalkeepers_team_id players goalkeepers) i in
  ((dist32 g c0 == dist32 g c1)%Q -> label = Some 1%Z) /\
  (label = Some 0%Z <-> (dist32 g c0 < dist32 g c1)%Q).
Proof.
  intros H0 H1 Hgk g c0 c1 label.
  assert (Hlabel : label =
    Some (if Qltb (dist32 g c0) (dist32 g c1) then 0%Z else 1%Z)).
  { unfold label. rewrite (resolve_defined players goalkeepers H0 H1).
    rewrite nth_error_map, Hgk. reflexivity. }
  assert (Hiff : label = Some 0%Z <-> (dist32 g c0 < dist32 g c1)%Q).
  { rewrite Hlabel, <- Qltb_lt.
    destruct (Qltb (dist32 g c0) (dist32 g c1));
      split; intro H; try reflexivity; discriminate. }
  split; [|exact Hiff].
  intro Heq. rewrite Hlabel.
  destruct (Qltb (dist32 g c0) (dist32 g c1)) eqn:E; [|reflexivity].
  exfalso. apply Qltb_lt in E. rewrite Heq in E. exact (Qlt_irrefl _ E).
Qed.

Lemma resolve_tie_is_team1_witness :
  team_xy 0 [player_team0; player_team1] <> [] /\
  team_xy 1 [player_team0; player_team1] <> [] /\
  nth_error (resolve_goalkeepers_team_id [player_team0; player_team1]
               [gk_50_50]) 0 = Some 1%Z.
Proof.
  split; [discriminate|]. split; [discriminate|].
  apply (proj1 (resolve_tie_is_team1 [player_team0; player_team1]
           [gk_50_50] 0 gk_50_50
           ltac:(discriminate) ltac:(discriminate) eq_refl)).
  vm_compute. reflexivity.
Defined.

(** C10 as stated fails: with three labeled players per team on the line
    y = 100, at x = 510, 510, 511 and at x = 513, 514, 514, the goalkeeper
    anchored at (512,100) is exactly equidistant from the two exact
    means (1531/3,100) and (1541/3,100); the [float32] means round
    differently on each side and the goalkeeper gets label 0. *)
Lemma exact_tie_gets_label_0 :
  exact_mean (team_xy 0 tie_players) = (1531 # 3, 300 # 3)%Q /\
  exact_mean (team_xy 1 tie_players) = (1541 # 3, 300 # 3)%Q /\
  bottom_center (xyxy gk_512_100) = (512 # 1, 100 # 1)%Q /\
  norm (psub (512 # 1, 100 # 1)%Q (1531 # 3, 300 # 3)%Q) =
    norm (psub (512 # 1, 100 # 1)%Q (1541 # 3, 300 # 3)%Q) /\
  resolve_goalkeepers_team_id tie_players [gk_512_100] = [0%Z].
Proof.
  split; [vm_compute; reflexivity|]. split; [vm_compute; reflexivity|].
  split; [vm_compute; reflexivity|]. split.
  - unfold norm. do 2 apply f_equal. vm_compute. reflexivity.
  - vm_compute. reflexivity.
Qed.

(* ===================================================================== *)
(** ** The frame loop of process_video *)
(* ===================================================================== *)

Section FrameLoop.

Variables frame tracker classifier : Type.
Variable get_detections : frame -> Detections.
Variable with_nms : Q -> bool -> Detections -> Detections.
Variable update_with_detections : tracker -> Detections -> tracker * Detections.
Variable ball_yolo : option (frame -> option Detections).
Variable predict : classifier -> list (crop frame) -> list Z.

Local Abbreviation step :=
  (process_frame frame tracker classifier get_detections with_nms
     update_with_detections ball_yolo predict).
Local Abbreviation ball_stage :=
  (detect_ball frame with_nms ball_yolo).
Local Abbreviation progress cb idx :=
  (if andb cb (Nat.eqb (Nat.modulo idx 10) 0)
   then [ProgressCallback frame idx] else []).

(** A frame on which the general detector finds nothing is counted and
    written as it came; nothing else happens. *)
Lemma process_frame_empty (tc : classifier) (cb : bool)
    (st : State frame tracker) (idx : nat) (f : frame) :
  get_detections f = [] ->
  step tc cb st idx f =
  mk_state frame tracker
    (mk_stats (frames_procesados (stats _ _ st) + 1)
       (jugadores_equipo_0 (stats _ _ st)) (jugadores_equipo_1 (stats _ _ st))
       (porteros_detectados (stats _ _ st)) (arbitros_detectados (stats _ _ st))
       (detecciones_balon (stats _ _ st)) (total_detecciones (stats _ _ st)))
    (byte_track _ _ st) (ball_tracker _ _ st)
    ((trace _ _ st ++ progress cb idx ++ [GetDetections frame f])
       ++ [WriteFrame frame (Raw frame f)]).
Proof. intro H. unfold process_frame. rewrite H. reflexivity. Qed.

(** A frame with detections goes through tracking, the ball stage, the
    ball tracker, the optional classification and goalkeeper resolution,
    and is written annotated. *)
Lemma process_frame_nonempty (tc : classifier) (cb : bool)
    (st : State frame tracker) (idx : nat) (f : frame) :
  get_detections f <> [] ->
  let tracked := snd (update_with_detections (byte_track _ _ st) (get_detections f)) in
  let ball_detections := fst (ball_stage f tracked) in
  let ball_update := update (ball_tracker _ _ st) ball_detections in
  let st' := step tc cb st idx f in
  byte_track _ _ st' =
    fst (update_with_detections (byte_track _ _ st) (get_detections f)) /\
  ball_tracker _ _ st' = snd ball_update /\
  frames_procesados (stats _ _ st') = (frames_procesados (stats _ _ st) + 1)%Z /\
  total_detecciones (stats _ _ st') =
    (total_detecciones (stats _ _ st) + len (get_detections f))%Z /\
  detecciones_balon (stats _ _ st') =
    (detecciones_balon (stats _ _ st) +
     match fst ball_update with Some _ => 1 | None => 0 end)%Z /\
  exists mid team0 team1,
    trace _ _ st' =
      trace _ _ st ++ progress cb idx ++
      [GetDetections frame f; TrackerUpdate frame (get_detections f)] ++
      snd (ball_stage f tracked) ++
      [BallTrackerUpdate frame ball_detections] ++ mid ++
      [WriteFrame frame
         (Annotated frame f team0 team1 (with_class REFEREE_ID tracked)
            (fst ball_update) (buffer (snd ball_update)))] /\
    forall e, In e mid ->
      (exists crops, e = ClassifierPredict frame crops) \/
      (exists ps gks, e = ResolveGoalkeepers frame ps gks).
Proof.
  intros Hne. cbv zeta. unfold process_frame.
  destruct (get_detections f) as [|d rest] eqn:Hd; [congruence|].
  destruct (update_with_detections (byte_track _ _ st) (d :: rest))
    as [bt tracked] eqn:Hu.
  cbn [fst snd].
  destruct (ball_stage f tracked) as [bd be] eqn:Hb.
  cbn [fst snd].
  destruct (update (ball_tracker _ _ st) bd) as [pos ball] eqn:Hupd.
  cbn [fst snd].
  destruct (nonempty (with_class PLAYER_ID tracked)) eqn:Ep;
    destruct (nonempty (with_class GOALKEEPER_ID tracked)) eqn:Eg;
    cbn [andb stats byte_track ball_tracker trace
         frames_procesados total_detecciones detecciones_balon].
  all: split; [reflexivity|]; split; [reflexivity|]; split; [reflexivity|];
       split; [reflexivity|];
       split; [destruct pos; [reflexivity | symmetry; apply Z.add_0_r]|].
  - refine (ex_intro _ [ClassifierPredict frame _;
                        ResolveGoalkeepers frame _ _] _).
    eexists. eexists. split.
    + repeat rewrite <- app_assoc. reflexivity.
    + intros e [He | [He | []]]; subst e; [left | right]; eauto.
  - refine (ex_intro _ [ClassifierPredict frame _] _).
    eexists. eexists. split.
    + repeat rewrite <- app_assoc. reflexivity.
    + intros e [He | []]; subst e; left; eauto.
  - exists []. eexists. eexists. split.
    + repeat rewrite <- app_assoc. reflexivity.
    + intros e [].
  - exists []. eexists. eexists. split.
    + repeat rewrite <- app_assoc. reflexivity.
    + intros e [].
Qed.

(** C2, as the code has it.  On a frame with detections the object
    tracker is updated with every detection of the general detector for
    that frame, whatever its class: no class filter precedes
    [update_with_detections], so ball detections are handed to identity
    tracking with the others. *)
Theorem tracker_receives_all_detections (tc : classifier) (cb : bool)
    (st : State frame tracker) (idx : nat) (f : frame) :
  get_detections f <> [] ->
  let st' := step tc cb st idx f in
  byte_track _ _ st' =
    fst (update_with_detections (byte_track _ _ st) (get_detections f)) /\
  exists post,
    trace _ _ st' =
      trace _ _ st ++ progress cb idx ++
      [GetDetections frame f; TrackerUpdate frame (get_detections f)] ++ post.
Proof.
  intros Hne st'.
  destruct (process_frame_nonempty tc cb st idx f Hne)
    as (Hbt & _ & _ & _ & _ & mid & t0 & t1 & Htr & _).
  split; [exact Hbt|]. eexists. unfold st'. rewrite Htr. reflexivity.
Qed.

(** C3, as the code has it.  A frame on which the general detector finds
    nothing is counted, reported and written as it came, and every other
    stage is skipped: both trackers and all other counters stay as they
    were.  A frame with at least one detection goes, in this order,
    through the object tracker (given all detections), the ball stage
    (the ball model when there is one, the ball class of the tracked
    detections otherwise), the ball tracker (with the ball counter
    incremented when a position is returned), the classification of the
    tracked players when there are any, the goalkeeper resolution when
    there are goalkeepers and players, the counters, and is written
    annotated with the two teams, the referees, the ball position and
    the trail. *)
Theorem frame_stages (tc : classifier) (cb : bool)
    (st : State frame tracker) (idx : nat) (f : frame) :
  let st' := step tc cb st idx f in
  let s := stats _ _ st in
  (get_detections f = [] ->
     st' =
     mk_state frame tracker
       (mk_stats (frames_procesados s + 1) (jugadores_equipo_0 s)
          (jugadores_equipo_1 s) (porteros_detectados s)
          (arbitros_detectados s) (detecciones_balon s) (total_detecciones s))
       (byte_track _ _ st) (ball_tracker _ _ st)
       (trace _ _ st ++ progress cb idx ++
        [GetDetections frame f; WriteFrame frame (Raw frame f)])) /\
  (get_detections f <> [] ->
     let detections := get_detections f in
     let tracked := snd (update_with_detections (byte_track _ _ st) detections) in
     let ball_detections :=
       match ball_yolo with
       | Some yolo =>
           match yolo f with
           | Some found =>
               if nonempty found then with_nms (1 # 10)%Q false found else found
           | None => with_class BALL_ID tracked
           end
       | None =>
           map (fun d => set_xyxy (pad_box 10 (xyxy d)) d)
               (with_class BALL_ID tracked)
       end in
     let ball_update := update (ball_tracker _ _ st) ball_detections in
     let goalkeepers := with_class GOALKEEPER_ID tracked in
     let players := with_class PLAYER_ID tracked in
     let referees := with_class REFEREE_ID tracked in
     let crops := crops_of frame f players in
     let players_team_id := predict tc crops in
     let classified := nonempty players in
     let resolved := andb (nonempty goalkeepers) (nonempty players) in
     let team0 :=
       if classified then mask_select (map (Z.eqb 0) players_team_id) players
       else [] in
     let team1 :=
       if classified then mask_select (map (Z.eqb 1) players_team_id) players
       else [] in
     let merged := map (set_class_id 0) team0 ++ map (set_class_id 1) team1 in
     let goalkeepers_team_id := resolve_goalkeepers_team_id merged goalkeepers in
     byte_track _ _ st' =
       fst (update_with_detections (byte_track _ _ st) detections) /\
     ball_tracker _ _ st' = snd ball_update /\
     stats _ _ st' =
       mk_stats (frames_procesados s + 1)
         (jugadores_equipo_0 s +
          if classified then count_eq 0 players_team_id else 0)
         (jugadores_equipo_1 s +
          if classified then count_eq 1 players_team_id else 0)
         (porteros_detectados s + len goalkeepers)
         (arbitros_detectados s + len referees)
         (detecciones_balon s +
          match fst ball_update with Some _ => 1 | None => 0 end)
         (total_detecciones s + len detections) /\
     trace _ _ st' =
       trace _ _ st ++ progress cb idx ++
       [GetDetections frame f; TrackerUpdate frame detections] ++
       (match ball_yolo with Some _ => [BallPredict frame f] | None => [] end) ++
       [BallTrackerUpdate frame ball_detections] ++
       (if classified then [ClassifierPredict frame crops] else []) ++
       (if resolved then [ResolveGoalkeepers frame merged goalkeepers] else []) ++
       [WriteFrame frame
          (Annotated frame f
             (if resolved
              then map (set_class_id 0) team0 ++
                   mask_select (map (Z.eqb 0) goalkeepers_team_id) goalkeepers
              else team0)
             (if resolved
              then map (set_class_id 1) team1 ++
                   mask_select (map (Z.eqb 1) goalkeepers_team_id) goalkeepers
              else team1)
             referees (fst ball_update) (buffer (snd ball_update)))]).
Proof.
  cbv zeta. split; intro H.
  - rewrite (process_frame_empty tc cb st idx f H).
    f_equal. rewrite <- !app_assoc. reflexivity.
  - unfold process_frame.
    destruct (get_detections f) as [|d rest] eqn:Hd; [congruence|].
    destruct (update_with_detections (byte_track _ _ st) (d :: rest))
      as [bt tracked].
    cbn [fst snd]. unfold detect_ball.
    destruct ball_yolo as [yolo|]; [destruct (yolo f) as [found|]|];
      match goal with
      | |- context [update (ball_tracker _ _ st) ?bd] =>
          destruct (update (ball_tracker _ _ st) bd) as [[pos|] ball]
      end;
      destruct (nonempty (with_class PLAYER_ID tracked));
      destruct (nonempty (with_class GOALKEEPER_ID tracked));
      cbn [andb fst snd stats byte_track ball_tracker trace];
      (split; [reflexivity|]); (split; [reflexivity|]);
      (split; [f_equal; cbn [frames_procesados jugadores_equipo_0
         jugadores_equipo_1 porteros_detectados arbitros_detectados
         detecciones_balon total_detecciones]; lia|]);
      repeat rewrite <- app_assoc; reflexivity.
Qed.

(** C9.  When the ball model is absent, or its prediction raises on the
    frame, the frame step still completes and writes its frame.  On a
    frame with detections the ball tracker is given the ball-class
    detections of the general detector's detections as the object
    tracker returned them (with their boxes padded by 10 pixels when the
    model is absent).  On a frame without detections the ball tracker is
    left as it was, which is what updating it with the (empty)
    ball-class detections would do. *)
Theorem ball_detector_unavailable (tc : classifier) (cb : bool)
    (st : State frame tracker) (idx : nat) (f : frame) :
  ball_yolo = None \/ (exists yolo, ball_yolo = Some yolo /\ yolo f = None) ->
  let st' := step tc cb st idx f in
  let tracked := snd (update_with_detections (byte_track _ _ st) (get_detections f)) in
  let fallback :=
    match ball_yolo with
    | None => map (fun d => set_xyxy (pad_box 10 (xyxy d)) d)
                  (with_class BALL_ID tracked)
    | Some _ => with_class BALL_ID tracked
    end in
  frames_procesados (stats _ _ st') = (frames_procesados (stats _ _ st) + 1)%Z /\
  (get_detections f = [] ->
     ball_tracker _ _ st' =
       snd (update (ball_tracker _ _ st) (with_class BALL_ID (get_detections f))) /\
     exists pre, trace _ _ st' = trace _ _ st ++ pre ++ [WriteFrame frame (Raw frame f)]) /\
  (get_detections f <> [] ->
     ball_tracker _ _ st' = snd (update (ball_tracker _ _ st) fallback) /\
     exists pre post w,
       trace _ _ st' =
         trace _ _ st ++ pre ++ [BallTrackerUpdate frame fallback] ++ post ++
         [WriteFrame frame w]).
Proof.
  intros Hun st' tracked fallback.
  assert (Hstage : fst (ball_stage f tracked) = fallback).
  { unfold detect_ball, fallback.
    destruct Hun as [-> | (yolo & -> & Hy)]; [reflexivity|].
    rewrite Hy. reflexivity. }
  split; [|split].
  - destruct (get_detections f) as [|d rest] eqn:Hd.
    + unfold st'. rewrite (process_frame_empty tc cb st idx f Hd). reflexivity.
    + assert (Hne : get_detections f <> []) by (rewrite Hd; discriminate).
      destruct (process_frame_nonempty tc cb st idx f Hne)
        as (_ & _ & Hfr & _). exact Hfr.
  - intro Hd. unfold st'. rewrite (process_frame_empty tc cb st idx f Hd).
    cbn [ball_tracker trace]. rewrite Hd. split; [reflexivity|].
    eexists. rewrite <- app_assoc. reflexivity.
  - intro Hne.
    destruct (process_frame_nonempty tc cb st idx f Hne)
      as (_ & Hball & _ & _ & _ & mid & t0 & t1 & Htr & _).
    fold tracked in Hball, Htr. rewrite Hstage in Hball, Htr.
    split; [exact Hball|].
    exists (progress cb idx ++
            [GetDetections frame f; TrackerUpdate frame (get_detections f)] ++
            snd (ball_stage f tracked)), mid.
    eexists. unfold st'. rewrite Htr.
    repeat rewrite <- app_assoc. reflexivity.
Qed.

End FrameLoop.

Lemma tracker_receives_all_detections_witness :
  seen ball_and_player <> [] /\
  byte_track _ _ (stub_process_frame (Some ball_seen) state0 0 ball_and_player) =
    fst (numbering_tracker 1%Z [ball_a; raw_player_a]) /\
  exists post,
    trace _ _ (stub_process_frame (Some ball_seen) state0 0 ball_and_player) =
      [GetDetections scene ball_and_player;
       TrackerUpdate scene [ball_a; raw_player_a]] ++ post.
Proof.
  split; [discriminate|].
  exact (tracker_receives_all_detections scene Z unit seen no_nms
           numbering_tracker (Some ball_seen) stub_predict tt false state0 0
           ball_and_player ltac:(discriminate)).
Defined.

(** C2 as stated fails: a ball detection of the general detector is part
    of what the object tracker is updated with, and comes back from it
    carrying a track id. *)
Lemma tracker_receives_ball :
  class_id ball_a = BALL_ID /\
  In (TrackerUpdate scene [ball_a; raw_player_a])
     (trace _ _ (stub_process_frame (Some ball_seen) state0 0 ball_and_player)) /\
  In (BallTrackerUpdate scene
        [mk_detection (xyxy ball_a) (confidence ball_a) BALL_ID (Some 1%Z)])
     (trace _ _ (stub_process_frame (Some ball_seen) state0 0 ball_and_player)).
Proof.
  split; [reflexivity|]. split.
  - right. left. reflexivity.
  - right. right. right. left. reflexivity.
Qed.

Lemma frame_stages_witness :
  (seen only_ball_model = [] /\
   stub_process_frame (Some ball_seen) state0 0 only_ball_model =
     mk_state scene Z (mk_stats 1 0 0 0 0 0 0) 1%Z (reset (init 30))
       [GetDetections scene only_ball_model;
        WriteFrame scene (Raw scene only_ball_model)]) /\
  (seen ball_and_player <> [] /\
   byte_track _ _ (stub_process_frame (Some ball_seen) state0 0 ball_and_player) =
     fst (numbering_tracker 1%Z (seen ball_and_player)) /\
   ball_tracker _ _ (stub_process_frame (Some ball_seen) state0 0 ball_and_player) =
     snd (update (reset (init 30))
            (with_class BALL_ID
               (snd (numbering_tracker 1%Z (seen ball_and_player)))))).
Proof.
  split; split.
  - reflexivity.
  - exact (proj1 (frame_stages scene Z unit seen no_nms numbering_tracker
             (Some ball_seen) stub_predict tt false state0 0 only_ball_model)
             eq_refl).
  - discriminate.
  - destruct (proj2 (frame_stages scene Z unit seen no_nms numbering_tracker
             (Some ball_seen) stub_predict tt false state0 0 ball_and_player)
             ltac:(discriminate)) as (Hbt & Hball & _).
    split; [exact Hbt | exact Hball].
Defined.

(** C3 as stated fails: on a frame where the general detector finds
    nothing while the ball model would find a ball, neither the ball model
    nor the ball tracker is called and the ball counter stays at zero,
    although updating the ball tracker with that ball would have returned
    a position. *)
Lemma zero_detections_skip_ball_stage :
  seen only_ball_model = [] /\
  ball_seen only_ball_model = Some [ball_a] /\
  fst (update (reset (init 30)) [ball_a]) = Some (center (xyxy ball_a)) /\
  trace _ _ (stub_process_frame (Some ball_seen) state0 0 only_ball_model) =
    [GetDetections scene only_ball_model;
     WriteFrame scene (Raw scene only_ball_model)] /\
  ~ In (BallPredict scene only_ball_model)
       (trace _ _ (stub_process_frame (Some ball_seen) state0 0 only_ball_model)) /\
  (forall ball_detections,
     ~ In (BallTrackerUpdate scene ball_detections)
          (trace _ _ (stub_process_frame (Some ball_seen) state0 0 only_ball_model))) /\
  ball_tracker _ _ (stub_process_frame (Some ball_seen) state0 0 only_ball_model) =
    reset (init 30) /\
  detecciones_balon
    (stats _ _ (stub_process_frame (Some ball_seen) state0 0 only_ball_model)) = 0%Z.
Proof.
  repeat split; try reflexivity.
  - intros [H | [H | []]]; discriminate.
  - intros bd [H | [H | []]]; discriminate.
Qed.

Lemma ball_detector_unavailable_witness :
  ((exists yolo, Some ball_seen = Some yolo /\ yolo ball_and_player = None) /\
   seen ball_and_player <> [] /\
   ball_tracker _ _ (stub_process_frame (Some ball_seen) state0 0 ball_and_player) =
     snd (update (reset (init 30))
            [mk_detection (xyxy ball_a) (confidence ball_a) BALL_ID (Some 1%Z)])) /\
  (seen ball_and_player <> [] /\
   ball_tracker _ _ (stub_process_frame None state0 0 ball_and_player) =
     snd (update (reset (init 30))
            [mk_detection (pad_box 10 (xyxy ball_a)) (confidence ball_a)
               BALL_ID (Some 1%Z)])).
Proof.
  split.
  - split; [exists ball_seen; split; reflexivity|].
    split; [discriminate|].
    exact (proj1 (proj2 (proj2 (ball_detector_unavailable scene Z unit seen no_nms
             numbering_tracker (Some ball_seen) stub_predict tt false state0 0
             ball_and_player
             (or_intror (ex_intro _ ball_seen (conj eq_refl eq_refl)))))
             ltac:(discriminate))).
  - split; [discriminate|].
    exact (proj1 (proj2 (proj2 (ball_detector_unavailable scene Z unit seen no_nms
             numbering_tracker None stub_predict tt false state0 0
             ball_and_player (or_introl eq_refl)))
             ltac:(discriminate))).
Defined.

(** C9 as stated fails: the ball model raises on a frame where the
    general detector has found a ball, the object tracker returns no
    detection yet, and the fallback, taken from the tracker's output,
    hands no candidate to the ball tracker: the ball-class detection of
    the general detector is not used and no position is counted. *)
Lemma fallback_misses_untracked_ball :
  ball_seen ball_and_player = None /\
  with_class BALL_ID (seen ball_and_player) = [ball_a] /\
  In (BallTrackerUpdate scene [])
     (trace _ _ (process_frame scene Z unit seen no_nms dropping_tracker
                   (Some ball_seen) stub_predict tt false state0 0
                   ball_and_player)) /\
  ~ In (BallTrackerUpdate scene [ball_a])
       (trace _ _ (process_frame scene Z unit seen no_nms dropping_tracker
                     (Some ball_seen) stub_predict tt false state0 0
                     ball_and_player)) /\
  ball_tracker _ _ (process_frame scene Z unit seen no_nms dropping_tracker
                      (Some ball_seen) stub_predict tt false state0 0
                      ball_and_player) = reset (init 30) /\
  detecciones_balon
    (stats _ _ (process_frame scene Z unit seen no_nms dropping_tracker
                  (Some ball_seen) stub_predict tt false state0 0
                  ball_and_player)) = 0%Z /\
  fst (update (reset (init 30)) (with_class BALL_ID (seen ball_and_player))) =
    Some (center (xyxy ball_a)).
Proof.
  split; [reflexivity|]. split; [reflexivity|]. split.
  - right. right. right. left. reflexivity.
  - split.
    + intro H. simpl in H.
      repeat (destruct H as [H | H]; [discriminate|]). exact H.
    + repeat split; reflexivity.
Qed.

(* ===================================================================== *)
(** ** create_team_classifier *)
(* ===================================================================== *)

(** The frame generator yields one frame out of every [stride]. *)
Lemma take_every_nth {A : Type} (stride : nat) (l : list A) :
  1 <= stride ->
  forall to_skip i,
    nth_error (take_every stride to_skip l) i = nth_error l (to_skip + i * stride).
Proof.
  intro Hs. induction l as [|x l IH]; intros k i.
  - simpl. destruct i; destruct (k + _); reflexivity.
  - destruct k as [|k]; simpl take_every.
    + destruct i as [|i]; [reflexivity|].
      simpl nth_error at 1. rewrite IH.
      replace (0 + S i * stride) with (S (stride - 1 + i * stride)) by lia.
      reflexivity.
    + rewrite IH. reflexivity.
Qed.

(** Without an [end] the generator never raises and yields one frame
    out of every [stride], from the first to the last. *)
Lemma frames_generator_to_end {A : Type} (video : list A) (stride : nat) :
  get_video_frames_generator video stride 0 None = Some (take_every stride 0 video).
Proof.
  unfold get_video_frames_generator, validate_and_setup_video.
  rewrite Nat.sub_0_r, firstn_all. reflexivity.
Qed.

Lemma frames_generator_stride {A : Type} (video : list A) (stride i : nat) :
  1 <= stride ->
  nth_error (take_every stride 0 video) i = nth_error video (i * stride).
Proof. intro Hs. rewrite take_every_nth by exact Hs. reflexivity. Qed.

Section TeamClassifier.

Variables frame tracker classifier : Type.
Variable get_detections : frame -> Detections.
Variable with_nms : Q -> bool -> Detections -> Detections.
Variable update_with_detections : tracker -> Detections -> tracker * Detections.
Variable ball_yolo : option (frame -> option Detections).
Variable fit : list (crop frame) -> option classifier.
Variable predict : classifier -> list (crop frame) -> list Z.

Local Abbreviation collect := (collect_crops frame get_detections with_nms).
Local Abbreviation players_of f :=
  (with_class PLAYER_ID (with_nms (1 # 2)%Q true (get_detections f))).

(** The cap is tested after all the crops of a frame have been added:
    the collection stays below the cap plus the largest number of
    players in one sampled frame. *)
Lemma collect_crops_bound (max_crops : Z) (k : Z) (frames : list frame) :
  (0 <= k)%Z ->
  (forall f, In f frames -> (len (players_of f) <= k)%Z) ->
  forall crops,
    (len crops < max_crops)%Z ->
    (len (collect max_crops crops frames) < max_crops + k)%Z.
Proof.
  intros H0 Hk. induction frames as [|f rest IH]; intros crops Hc.
  - simpl. lia.
  - cbn [collect_crops].
    assert (Hlen : len (crops ++ crops_of frame f (players_of f)) =
                   (len crops + len (players_of f))%Z).
    { unfold len, crops_of. rewrite length_app, length_map. lia. }
    assert (Hf : (len (players_of f) <= k)%Z) by (apply Hk; left; reflexivity).
    rewrite Z.geb_leb.
    destruct (Z.leb_spec max_crops (len (crops ++ crops_of frame f (players_of f)))).
    + lia.
    + apply IH; [intros g Hg; apply Hk; right; exact Hg | assumption].
Qed.

(** Once the cap is reached the frames that remain are not sampled. *)
Lemma collect_crops_stops (max_crops : Z) (crops : list (crop frame))
    (f : frame) (rest : list frame) :
  (max_crops <= len (crops ++ crops_of frame f (players_of f)))%Z ->
  collect max_crops crops (f :: rest) = crops ++ crops_of frame f (players_of f).
Proof.
  intro H. cbn [collect_crops]. rewrite Z.geb_leb.
  destruct (Z.leb_spec max_crops (len (crops ++ crops_of frame f (players_of f))));
    [reflexivity | lia].
Qed.

(** C8.  Given a [fit] that raises on an empty list of crops, a crop
    collection that ends without any crop makes [create_team_classifier]
    raise, and the analysis of [main] ends there: [process_video] is
    never entered, so no frame is processed. *)
Theorem fit_failure_surfaces (video : list frame) (fresh : tracker)
    (start_frame : nat) (max_frames : option nat) :
  fit_rejects_no_crops frame classifier fit ->
  (forall stride max_crops,
     collected_crops frame get_detections with_nms video stride max_crops = Some [] ->
     create_team_classifier frame classifier get_detections with_nms fit
       video stride max_crops = None) /\
  (collected_crops frame get_detections with_nms video 30 500 = Some [] ->
   main_analysis frame tracker classifier get_detections with_nms
     update_with_detections ball_yolo fit predict
     video fresh start_frame max_frames = FitRaised frame tracker).
Proof.
  intro Hfit. unfold fit_rejects_no_crops in Hfit. split.
  - intros stride max_crops H. unfold create_team_classifier.
    rewrite H. exact Hfit.
  - intro H. unfold main_analysis, create_team_classifier.
    rewrite H, Hfit. reflexivity.
Qed.

End TeamClassifier.

Lemma fit_failure_surfaces_witness :
  fit_rejects_no_crops scene unit stub_fit /\
  collected_crops scene seen no_nms [no_player; no_player] 30 500 = Some [] /\
  main_analysis scene Z unit seen no_nms numbering_tracker (Some ball_seen)
    stub_fit stub_predict [no_player; no_player] 1%Z 0 None = FitRaised scene Z.
Proof.
  split; [reflexivity|]. split; [reflexivity|].
  apply (proj2 (fit_failure_surfaces scene Z unit seen no_nms numbering_tracker
           (Some ball_seen) stub_fit stub_predict [no_player; no_player] 1%Z 0 None
           eq_refl)).
  reflexivity.
Defined.

(** C7 does not hold of the code: with [max_crops = 1] and a first sampled
    frame that shows two players, both crops of the frame are added before
    the cap is tested, and the collection ends with two crops. *)
Theorem crop_cap_overshoot :
  len (collect_crops scene seen no_nms 1 [] [two_players; two_players]) = 2%Z /\
  (1 < len (collect_crops scene seen no_nms 1 [] [two_players; two_players]))%Z.
Proof. split; [reflexivity | vm_compute; reflexivity]. Qed.

(* ===================================================================== *)
(** ** More on BallTracker *)
(* ===================================================================== *)

Lemma deque_append_length {A : Type} (m : nat) (b : list A) (x : A) :
  length b <= m -> length (deque_append m b x) = Nat.min m (length b + 1).
Proof.
  intro H. unfold deque_append. rewrite length_app. simpl.
  destruct (Nat.ltb_spec m (length b + 1)).
  - destruct b as [|y b']; simpl in *; [lia|]. rewrite length_app. simpl. lia.
  - rewrite length_app. simpl. lia.
Qed.

Lemma deque_append_newest {A : Type} (m : nat) (b : list A) (x : A) :
  1 <= m -> exists front, deque_append m b x = front ++ [x].
Proof.
  intro H. unfold deque_append. rewrite length_app. simpl.
  destruct (Nat.ltb_spec m (length b + 1)).
  - destruct b as [|y b']; [simpl in *; lia|]. exists b'. reflexivity.
  - exists b. reflexivity.
Qed.

Lemma update_nonempty_shape (t : BallTracker) (d : Detection) (rest : Detections) :
  exists p,
    In p (get_anchors_coordinates center (d :: rest)) /\
    update t (d :: rest) =
      (Some p, mk_ball_tracker (maxlen t) (deque_append (maxlen t) (buffer t) p)
                 (Some p)).
Proof.
  unfold update. destruct (last_position t) as [last|].
  - eexists. split; [|reflexivity].
    apply (nearest_candidate (fun p => norm32 (psub32 p last))
             (get_anchors_coordinates center (d :: rest))).
    simpl. discriminate.
  - eexists. split; [|reflexivity]. left. reflexivity.
Qed.

(** The trail buffer never grows beyond its capacity, whatever the frames
    bring, and the capacity itself is never changed by an update. *)
Theorem buffer_within_capacity (t : BallTracker) (frames : list Detections) :
  length (buffer t) <= maxlen t ->
  length (buffer (updates t frames)) <= maxlen t /\
  maxlen (updates t frames) = maxlen t.
Proof.
  revert t. induction frames as [|dets rest IH]; intros t H; [split; [exact H | reflexivity]|].
  cbn [updates]. destruct dets as [|d ds].
  - apply IH. exact H.
  - destruct (update_nonempty_shape t d ds) as (p & _ & Hu). rewrite Hu. cbn [snd].
    destruct (IH (mk_ball_tracker (maxlen t)
                    (deque_append (maxlen t) (buffer t) p) (Some p))) as [Hb Hm].
    + cbn [buffer maxlen]. rewrite deque_append_length by exact H. lia.
    + cbn [maxlen] in Hb, Hm. split; assumption.
Qed.

Lemma buffer_within_capacity_witness :
  length (buffer tracker_near_b) <= maxlen tracker_near_b /\
  length (buffer (updates tracker_near_b [[ball_a; ball_b]; []; [ball_a]])) <= 30 /\
  maxlen (updates tracker_near_b [[ball_a; ball_b]; []; [ball_a]]) = 30.
Proof.
  split; [simpl; lia|].
  apply (buffer_within_capacity tracker_near_b [[ball_a; ball_b]; []; [ball_a]]).
  simpl. lia.
Defined.

(** [update] returns no position exactly when the frame has no ball
    candidate.  A returned position is always the centre of one of the
    candidates; it becomes the last known position and, for a capacity of
    at least one, the newest entry of the trail buffer. *)
Theorem update_returns_candidate (t : BallTracker) (detections : Detections) :
  (fst (update t detections) = None <-> detections = []) /\
  forall p, fst (update t detections) = Some p ->
    In p (get_anchors_coordinates center detections) /\
    last_position (snd (update t detections)) = Some p /\
    (1 <= maxlen t ->
     exists front, buffer (snd (update t detections)) = front ++ [p]).
Proof.
  destruct detections as [|d rest].
  - split; [split; reflexivity|]. intros p H. discriminate.
  - destruct (update_nonempty_shape t d rest) as (q & Hin & Hu). rewrite Hu.
    cbn [fst snd buffer last_position]. split.
    + split; intro H; discriminate.
    + intros p Hp. injection Hp as <-. split; [exact Hin|]. split; [reflexivity|].
      intro Hm. apply deque_append_newest. exact Hm.
Qed.

Lemma update_returns_candidate_witness :
  fst (update tracker_near_b [ball_a; ball_b]) = Some (center (xyxy ball_b)) /\
  In (center (xyxy ball_b)) (get_anchors_coordinates center [ball_a; ball_b]) /\
  last_position (snd (update tracker_near_b [ball_a; ball_b])) =
    Some (center (xyxy ball_b)) /\
  exists front,
    buffer (snd (update tracker_near_b [ball_a; ball_b])) =
      front ++ [center (xyxy ball_b)].
Proof.
  split; [reflexivity|].
  destruct (proj2 (update_returns_candidate tracker_near_b [ball_a; ball_b])
              (center (xyxy ball_b)) eq_refl) as (Hin & Hlast & Hbuf).
  split; [exact Hin|]. split; [exact Hlast|]. apply Hbuf. simpl. lia.
Defined.

(** Frames without a ball candidate leave no mark on the tracker: a run
    of updates ends in the same tracker as the run without those frames. *)
Theorem updates_ignore_empty_frames (t : BallTracker) (frames : list Detections) :
  updates t frames = updates t (filter nonempty frames).
Proof.
  revert t. induction frames as [|dets rest IH]; intro t; [reflexivity|].
  destruct dets as [|d ds]; cbn [filter nonempty updates update snd].
  - apply IH.
  - apply IH.
Qed.

(** Frames with one ball candidate each: a tracker created with capacity
    [n] holds the centres of the last [n] of them, oldest first. *)
Theorem trail_is_recent_history (n : nat) (ds : list Detection) :
  buffer (updates (init n) (map (fun d => [d]) ds)) =
  skipn (length ds - n) (map (fun d => center (xyxy d)) ds).
Proof.
  destruct (updates_single_history ds (init n) []) as [Hb _]; [reflexivity|].
  rewrite Hb. cbn [app maxlen init]. rewrite length_map. reflexivity.
Qed.

(** The length of the trail of a tracker created with capacity [n] is the
    number of frames that had a ball candidate, capped at [n]. *)
Theorem trail_length_counts_ball_frames (n : nat) (frames : list Detections) :
  length (buffer (updates (init n) frames)) =
  Nat.min n (length (filter nonempty frames)).
Proof.
  assert (G : forall t, length (buffer t) <= maxlen t ->
            length (buffer (updates t frames)) =
            Nat.min (maxlen t) (length (buffer t) + length (filter nonempty frames))).
  { induction frames as [|dets rest IH]; intros t H.
    - simpl. lia.
    - cbn [updates]. destruct dets as [|d ds]; cbn [filter nonempty].
      + apply IH. exact H.
      + destruct (update_nonempty_shape t d ds) as (p & _ & Hu). rewrite Hu.
        cbn [snd]. rewrite IH; cbn [buffer maxlen];
          rewrite deque_append_length by exact H; simpl length; lia. }
  rewrite G by (simpl; lia). reflexivity.
Qed.

Lemma argmin_first (l : list Q) (j : nat) :
  j < argmin l -> (nth (argmin l) l 0 < nth j l 0)%Q.
Proof.
  revert j. induction l as [|d l' IH]; intros j Hj; [simpl in Hj; lia|].
  destruct l' as [|e l'']; [simpl in Hj; lia|].
  change (argmin (d :: e :: l'')) with
    (if Qle_bool d (nth (argmin (e :: l'')) (e :: l'') 0%Q)
     then 0 else S (argmin (e :: l''))) in *.
  destruct (Qle_bool d (nth (argmin (e :: l'')) (e :: l'') 0%Q)) eqn:E; [lia|].
  change (nth (S (argmin (e :: l''))) (d :: e :: l'') 0%Q)
    with (nth (argmin (e :: l'')) (e :: l'') 0%Q).
  destruct j as [|k].
  - change (nth 0 (d :: e :: l'') 0%Q) with d.
    apply Qnot_le_lt. intro Hle. apply Qle_bool_iff in Hle. congruence.
  - change (nth (S k) (d :: e :: l'') 0%Q) with (nth k (e :: l'') 0%Q).
    apply IH. lia.
Qed.

(** Among candidates whose computed distances to the last known
    position are equal, the one that comes first in the detections wins:
    every candidate listed before the adopted one has a strictly larger
    computed [float32] distance, and no candidate has a smaller one. *)
Theorem update_prefers_earliest_nearest
    (t : BallTracker) (detections : Detections) (last : point) :
  last_position t = Some last ->
  detections <> [] ->
  exists i p,
    nth_error (get_anchors_coordinates center detections) i = Some p /\
    fst (update t detections) = Some p /\
    (forall j q,
       j < i ->
       nth_error (get_anchors_coordinates center detections) j = Some q ->
       (dist32 p last < dist32 q last)%Q) /\
    (forall j q,
       nth_error (get_anchors_coordinates center detections) j = Some q ->
       (dist32 p last <= dist32 q last)%Q).
Proof.
  intros Hlast Hne. destruct detections as [|d rest]; [congruence|].
  unfold update. rewrite Hlast. cbv zeta. cbn [fst].
  set (xy := get_anchors_coordinates center (d :: rest)).
  set (f := fun p : point => norm32 (psub32 p last)).
  assert (Hlen : argmin (map f xy) < length xy).
  { rewrite <- (length_map f). apply argmin_lt_length. unfold xy. simpl. discriminate. }
  exists (argmin (map f xy)), (nth (argmin (map f xy)) xy (0, 0)%Q).
  split; [apply nth_error_nth'; exact Hlen|]. split; [reflexivity|]. split.
  - intros j q Hj Hq.
    assert (Hjl : j < length xy) by lia.
    pose proof (argmin_first (map f xy) j Hj) as Hlt.
    rewrite (nth_indep (map f xy) 0%Q (f (0, 0)%Q)) in Hlt
      by (rewrite length_map; exact Hlen).
    rewrite (nth_indep (map f xy) 0%Q (f (0, 0)%Q) (n := j)) in Hlt
      by (rewrite length_map; exact Hjl).
    rewrite !map_nth in Hlt.
    rewrite (nth_error_nth' xy (0, 0)%Q Hjl) in Hq. injection Hq as <-.
    exact Hlt.
  - intros j q Hq.
    assert (Hxy : xy <> []) by (unfold xy; simpl; discriminate).
    apply (proj2 (nearest_candidate f xy Hxy)).
    eapply nth_error_In. exact Hq.
Qed.

Lemma update_prefers_earliest_nearest_witness :
  exists i p,
    nth_error (get_anchors_coordinates center [ball_far; ball_near; ball_near]) i =
      Some p /\
    fst (update tracker_at_100 [ball_far; ball_near; ball_near]) = Some p /\
    (forall j q,
       j < i ->
       nth_error (get_anchors_coordinates center [ball_far; ball_near; ball_near]) j =
         Some q ->
       (dist32 p (100 # 1, 100 # 1)%Q < dist32 q (100 # 1, 100 # 1)%Q)%Q) /\
    (forall j q,
       nth_error (get_anchors_coordinates center [ball_far; ball_near; ball_near]) j =
         Some q ->
       (dist32 p (100 # 1, 100 # 1)%Q <= dist32 q (100 # 1, 100 # 1)%Q)%Q).
Proof.
  apply (update_prefers_earliest_nearest tracker_at_100
           [ball_far; ball_near; ball_near] (100 # 1, 100 # 1)%Q);
    [reflexivity | discriminate].
Defined.

(* ===================================================================== *)
(** ** BallAnnotator *)
(* ===================================================================== *)

Lemma int_of_alpha (i n : nat) :
  0 < n ->
  int (4 * (inject_Z (Z.of_nat i) / inject_Z (Z.of_nat n))) = Z.of_nat (4 * i / n).
Proof.
  intro Hn. destruct n as [|m]; [lia|].
  unfold int. rewrite Nat2Z.inj_div, Nat2Z.inj_mul.
  change (Z.of_nat 4) with 4%Z.
  assert (Hq : (4 * (inject_Z (Z.of_nat i) / inject_Z (Z.of_nat (S m))))%Q =
               Qmake (4 * (Z.of_nat i * 1)) (1 * (1 * Pos.of_succ_nat m))).
  { reflexivity. }
  rewrite Hq. cbn [Qnum Qden].
  rewrite Z.mul_1_r, !Pos.mul_1_l.
  rewrite Z.quot_div_nonneg by lia.
  rewrite Zpos_P_of_succ_nat, <- Nat2Z.inj_succ. reflexivity.
Qed.

Lemma flat_map_singletons {A B : Type} (f : A -> list B) (g : A -> B) (l : list A) :
  (forall x, In x l -> f x = [g x]) -> flat_map f l = map g l.
Proof.
  induction l as [|x l IH]; intro H; [reflexivity|].
  simpl. rewrite (H x) by (left; reflexivity). simpl. f_equal.
  apply IH. intros y Hy. apply H. right. exact Hy.
Qed.

(** On a trail buffer as the ball tracker keeps it (no missing sample),
    [annotate] draws one segment per pair of consecutive samples, oldest
    first, then the ball.  The segment that ends at sample [i] has
    thickness [max 2 (4 i / n)] for a trail of [n] samples: always 2 or 3,
    and never thinner than an older segment. *)
Theorem trail_of_tracker_buffer
    (a : BallAnnotator) (position : option point) (buf : list point) :
  let n := length buf in
  let thickness := fun i : nat => Z.max 2 (Z.of_nat (4 * i / n)) in
  annotate a position (map Some buf) =
    map (fun i => Line (to_pixel (nth (i - 1) buf (0, 0)%Q))
                       (to_pixel (nth i buf (0, 0)%Q))
                       (trail_color a) (thickness i))
        (seq 1 (n - 1))
    ++ annotate a position [] /\
  (forall i, 1 <= i < n -> (2 <= thickness i <= 3)%Z) /\
  (forall i j, i <= j -> (thickness i <= thickness j)%Z).
Proof.
  intros n thickness. split; [|split].
  - unfold annotate at 1. rewrite length_map. fold n. f_equal.
    apply flat_map_singletons. intros i Hi. apply in_seq in Hi.
    unfold trail_segment. rewrite !nth_error_map, length_map. fold n.
    rewrite (nth_error_nth' buf (0, 0)%Q (n := i - 1)) by (unfold n in Hi; lia).
    rewrite (nth_error_nth' buf (0, 0)%Q (n := i)) by (unfold n in Hi; lia).
    cbn [option_map]. rewrite int_of_alpha by lia. reflexivity.
  - intros i Hi. unfold thickness.
    assert (4 * i / n <= 3).
    { apply Nat.lt_succ_r. apply Nat.Div0.div_lt_upper_bound. lia. }
    lia.
  - intros i j Hij. unfold thickness.
    assert (4 * i / n <= 4 * j / n) by (apply Nat.Div0.div_le_mono; lia).
    lia.
Qed.

(** [annotate] never draws across a gap: every segment it draws joins two
    consecutive samples that are both present, in the trail colour and at
    least 2 thick.  Without a position it draws no circle at all. *)
Theorem annotate_respects_gaps
    (a : BallAnnotator) (position : option point)
    (trail_buffer : list (option point)) :
  (forall p1 p2 c th,
     In (Line p1 p2 c th) (annotate a position trail_buffer) ->
     exists i q1 q2,
       1 <= i < length trail_buffer /\
       nth_error trail_buffer (i - 1) = Some (Some q1) /\
       nth_error trail_buffer i = Some (Some q2) /\
       p1 = to_pixel q1 /\ p2 = to_pixel q2 /\
       c = trail_color a /\ (2 <= th)%Z) /\
  (position = None ->
   forall centre r c th, ~ In (Circle centre r c th) (annotate a position trail_buffer)).
Proof.
  split.
  - intros p1 p2 c th H. unfold annotate in H. apply in_app_or in H.
    destruct H as [H | H].
    + apply in_flat_map in H. destruct H as (i & Hi & Hl).
      apply in_seq in Hi. unfold trail_segment in Hl.
      destruct (nth_error trail_buffer (i - 1)) as [[q1|]|] eqn:E1; try contradiction.
      destruct (nth_error trail_buffer i) as [[q2|]|] eqn:E2; try contradiction.
      cbv zeta in Hl. destruct Hl as [Hl | []]. injection Hl as <- <- <- <-.
      exists i, q1, q2.
      repeat split; try assumption; try reflexivity; lia.
    + destruct position; simpl in H;
        repeat (destruct H as [H | H]; [discriminate|]); contradiction.
  - intros -> centre r c th H. unfold annotate in H. rewrite app_nil_r in H.
    apply in_flat_map in H. destruct H as (i & _ & Hl).
    unfold trail_segment in Hl.
    destruct (nth_error trail_buffer (i - 1)) as [[q1|]|]; try contradiction.
    destruct (nth_error trail_buffer i) as [[q2|]|]; try contradiction.
    destruct Hl as [Hl | []]. discriminate.
Qed.

Lemma annotate_respects_gaps_witness :
  In (Line (1, 1)%Z (3, 3)%Z (0, 255, 255)%Z 2)
     (annotate (mk_ball_annotator 12 (0, 255, 0)%Z (0, 255, 255)%Z) None
        [Some (1 # 1, 1 # 1)%Q; Some (7 # 2, 7 # 2)%Q; None; Some (9 # 1, 9 # 1)%Q]) /\
  exists i q1 q2,
    1 <= i < 4 /\
    nth_error [Some (1 # 1, 1 # 1)%Q; Some (7 # 2, 7 # 2)%Q; None; Some (9 # 1, 9 # 1)%Q]
      (i - 1) = Some (Some q1) /\
    nth_error [Some (1 # 1, 1 # 1)%Q; Some (7 # 2, 7 # 2)%Q; None; Some (9 # 1, 9 # 1)%Q]
      i = Some (Some q2) /\
    (1, 1)%Z = to_pixel q1 /\ (3, 3)%Z = to_pixel q2 /\
    (0, 255, 255)%Z = (0, 255, 255)%Z /\ (2 <= 2)%Z.
Proof.
  split; [left; reflexivity|].
  apply (proj1 (annotate_respects_gaps
                  (mk_ball_annotator 12 (0, 255, 0)%Z (0, 255, 255)%Z) None
                  [Some (1 # 1, 1 # 1)%Q; Some (7 # 2, 7 # 2)%Q; None;
                   Some (9 # 1, 9 # 1)%Q])
               (1, 1)%Z (3, 3)%Z (0, 255, 255)%Z 2%Z).
  left. reflexivity.
Defined.

(* ===================================================================== *)
(** ** More on resolve_goalkeepers_team_id *)
(* ===================================================================== *)

Lemma resolve_labels (players goalkeepers : Detections) :
  length (resolve_goalkeepers_team_id players goalkeepers) = length goalkeepers /\
  forall label, In label (resolve_goalkeepers_team_id players goalkeepers) ->
                label = 0%Z \/ label = 1%Z.
Proof.
  unfold resolve_goalkeepers_team_id, get_anchors_coordinates.
  rewrite !length_map. split; [reflexivity|].
  intros label H. apply in_map_iff in H. destruct H as (xy & <- & _).
  destruct (flt _ _); [left | right]; reflexivity.
Qed.

(** The resolver answers one label per goalkeeper, in order, and every
    label is 0 or 1, whatever the players are. *)
Theorem resolve_labels_binary (players goalkeepers : Detections) :
  length (resolve_goalkeepers_team_id players goalkeepers) = length goalkeepers /\
  forall label, In label (resolve_goalkeepers_team_id players goalkeepers) ->
                label = 0%Z \/ label = 1%Z.
Proof.
  unfold resolve_goalkeepers_team_id, get_anchors_coordinates.
  rewrite !length_map. split; [reflexivity|].
  intros label H. apply in_map_iff in H. destruct H as (xy & <- & _).
  destruct (flt _ _); [left | right]; reflexivity.
Qed.

(** With no labeled player on team 1 the centroid of team 1 is [nan],
    no distance is smaller than [nan], and every goalkeeper gets label 1
    although team 0 is the only team with a centroid. *)
Theorem resolve_team1_empty (players goalkeepers : Detections) :
  team_xy 1 players = [] ->
  resolve_goalkeepers_team_id players goalkeepers = map (fun _ => 1%Z) goalkeepers.
Proof. intro H. apply resolve_undefined. right. exact H. Qed.

Lemma resolve_team1_empty_witness :
  team_xy 1 [player_team0] = [] /\
  resolve_goalkeepers_team_id [player_team0] [gk_5_5; gk_95_95] = [1%Z; 1%Z].
Proof.
  split; [reflexivity|].
  apply (resolve_team1_empty [player_team0] [gk_5_5; gk_95_95]). reflexivity.
Defined.

Lemma mask_select_binary {A : Type} (ids : list Z) (l : list A) :
  length ids = length l ->
  (forall label, In label ids -> label = 0%Z \/ label = 1%Z) ->
  length (mask_select (map (Z.eqb 0) ids) l) +
  length (mask_select (map (Z.eqb 1) ids) l) = length l /\
  forall x, In x l <->
            In x (mask_select (map (Z.eqb 0) ids) l) \/
            In x (mask_select (map (Z.eqb 1) ids) l).
Proof.
  revert l. induction ids as [|id ids IH]; intros [|y l] Hlen Hbin;
    try discriminate.
  - split; [reflexivity|]. intro x. simpl. tauto.
  - destruct (IH l) as [IHl IHin].
    + simpl in Hlen. lia.
    + intros label H. apply Hbin. right. exact H.
    + destruct (Hbin id (or_introl eq_refl)) as [-> | ->]; simpl.
      * split; [lia|]. intro x. rewrite IHin. tauto.
      * split; [lia|]. intro x. rewrite IHin. tauto.
Qed.

(** The two goalkeeper masks of the frame loop split the goalkeepers:
    every goalkeeper is merged into team 0 or into team 1, and the two
    selections together have as many members as there are goalkeepers. *)
Theorem goalkeepers_split_between_teams (players goalkeepers : Detections) :
  let goalkeepers_team_id := resolve_goalkeepers_team_id players goalkeepers in
  let team0 := mask_select (map (Z.eqb 0) goalkeepers_team_id) goalkeepers in
  let team1 := mask_select (map (Z.eqb 1) goalkeepers_team_id) goalkeepers in
  length team0 + length team1 = length goalkeepers /\
  forall gk, In gk goalkeepers <-> In gk team0 \/ In gk team1.
Proof.
  cbv zeta.
  destruct (resolve_labels players goalkeepers) as [Hlen Hbin].
  apply mask_select_binary; assumption.
Qed.

(* ===================================================================== *)
(** ** Whole runs of the frame loop *)
(* ===================================================================== *)

Section Runs.

Variables frame tracker classifier : Type.
Variable get_detections : frame -> Detections.
Variable with_nms : Q -> bool -> Detections -> Detections.
Variable update_with_detections : tracker -> Detections -> tracker * Detections.
Variable ball_yolo : option (frame -> option Detections).
Variable predict : classifier -> list (crop frame) -> list Z.

Local Abbreviation step :=
  (process_frame frame tracker classifier get_detections with_nms
     update_with_detections ball_yolo predict).
Local Abbreviation run :=
  (process_frames frame tracker classifier get_detections with_nms
     update_with_detections ball_yolo predict).
Local Abbreviation writes tr :=
  (length (filter (fun e : event frame =>
                     match e with WriteFrame _ _ => true | _ => false end) tr)).
Local Abbreviation callbacks tr :=
  (length (filter (fun e : event frame =>
                     match e with ProgressCallback _ _ => true | _ => false end) tr)).
Local Abbreviation due cb idx :=
  (if andb cb (Nat.eqb (Nat.modulo idx 10) 0) then 1 else 0).
Local Abbreviation written tr :=
  (flat_map (fun e : event frame =>
               match e with
               | WriteFrame _ (Raw _ g) => [g]
               | WriteFrame _ (Annotated _ g _ _ _ _ _) => [g]
               | _ => []
               end) tr).

Lemma count_eq_nonneg (c : Z) (ids : list Z) : (0 <= count_eq c ids)%Z.
Proof. unfold count_eq. lia. Qed.

(** What one pass of the loop body does to the counters and the trace. *)
Lemma process_frame_deltas (tc : classifier) (cb : bool)
    (st : State frame tracker) (idx : nat) (f : frame) :
  let st' := step tc cb st idx f in
  let s := stats _ _ st in
  let s' := stats _ _ st' in
  let tracked := snd (update_with_detections (byte_track _ _ st) (get_detections f)) in
  let players := with_class PLAYER_ID tracked in
  let ids := predict tc (crops_of frame f players) in
  frames_procesados s' = (frames_procesados s + 1)%Z /\
  total_detecciones s' = (total_detecciones s + len (get_detections f))%Z /\
  (detecciones_balon s <= detecciones_balon s' <= detecciones_balon s + 1)%Z /\
  writes (trace _ _ st') = writes (trace _ _ st) + 1 /\
  callbacks (trace _ _ st') = callbacks (trace _ _ st) + due cb idx /\
  (get_detections f <> [] ->
   porteros_detectados s' =
     (porteros_detectados s + len (with_class GOALKEEPER_ID tracked))%Z /\
   arbitros_detectados s' =
     (arbitros_detectados s + len (with_class REFEREE_ID tracked))%Z /\
   jugadores_equipo_0 s' =
     (jugadores_equipo_0 s + if nonempty players then count_eq 0 ids else 0)%Z /\
   jugadores_equipo_1 s' =
     (jugadores_equipo_1 s + if nonempty players then count_eq 1 ids else 0)%Z).
Proof.
  cbv zeta. unfold process_frame.
  destruct (get_detections f) as [|d rest] eqn:Hd.
  - cbn [stats trace frames_procesados total_detecciones detecciones_balon].
    destruct (andb cb (Nat.eqb (Nat.modulo idx 10) 0));
      rewrite !filter_app, !length_app; simpl;
      repeat split; unfold len; simpl; try lia; congruence.
  - destruct (update_with_detections (byte_track _ _ st) (d :: rest))
      as [bt tracked].
    cbn [snd]. unfold detect_ball.
    destruct ball_yolo as [yolo|]; [destruct (yolo f) as [found|]|];
      match goal with
      | |- context [update (ball_tracker _ _ st) ?bd] =>
          destruct (update (ball_tracker _ _ st) bd) as [[pos|] ball]
      end;
      destruct (nonempty (with_class PLAYER_ID tracked));
      destruct (nonempty (with_class GOALKEEPER_ID tracked));
      destruct (andb cb (Nat.eqb (Nat.modulo idx 10) 0));
      cbn [andb stats trace frames_procesados total_detecciones detecciones_balon
           porteros_detectados arbitros_detectados jugadores_equipo_0
           jugadores_equipo_1];
      rewrite !filter_app, !length_app; simpl;
      repeat split; lia.
Qed.

Lemma process_frame_monotone (tc : classifier) (cb : bool)
    (st : State frame tracker) (idx : nat) (f : frame) :
  let s := stats _ _ st in
  let s' := stats _ _ (step tc cb st idx f) in
  (jugadores_equipo_0 s <= jugadores_equipo_0 s')%Z /\
  (jugadores_equipo_1 s <= jugadores_equipo_1 s')%Z /\
  (porteros_detectados s <= porteros_detectados s')%Z /\
  (arbitros_detectados s <= arbitros_detectados s')%Z.
Proof.
  cbv zeta. destruct (get_detections f) as [|d rest] eqn:Hd.
  - rewrite (process_frame_empty _ _ _ get_detections with_nms
               update_with_detections ball_yolo predict tc cb st idx f Hd).
    cbn. lia.
  - destruct (process_frame_deltas tc cb st idx f)
      as (_ & _ & _ & _ & _ & H).
    destruct H as (Hp & Ha & H0 & H1); [rewrite Hd; discriminate|].
    rewrite Hp, Ha, H0, H1. unfold len.
    destruct (nonempty _);
      pose proof (count_eq_nonneg 0 (predict tc (crops_of frame f
         (with_class PLAYER_ID (snd (update_with_detections
            (byte_track _ _ st) (get_detections f)))))));
      pose proof (count_eq_nonneg 1 (predict tc (crops_of frame f
         (with_class PLAYER_ID (snd (update_with_detections
            (byte_track _ _ st) (get_detections f)))))));
      lia.
Qed.

(** The one frame a pass of the loop body writes is the frame it was
    given. *)
Lemma process_frame_writes_its_frame (tc : classifier) (cb : bool)
    (st : State frame tracker) (idx : nat) (f : frame) :
  written (trace _ _ (step tc cb st idx f)) = written (trace _ _ st) ++ [f].
Proof.
  unfold process_frame.
  destruct (get_detections f) as [|d rest] eqn:Hd.
  - cbn [trace].
    destruct (andb cb (Nat.eqb (Nat.modulo idx 10) 0));
      rewrite !flat_map_app; simpl; rewrite ?app_nil_r; reflexivity.
  - destruct (update_with_detections (byte_track _ _ st) (d :: rest))
      as [bt tracked].
    unfold detect_ball.
    destruct ball_yolo as [yolo|]; [destruct (yolo f) as [found|]|];
      match goal with
      | |- context [update (ball_tracker _ _ st) ?bd] =>
          destruct (update (ball_tracker _ _ st) bd) as [pos ball]
      end;
      destruct (nonempty (with_class PLAYER_ID tracked));
      destruct (nonempty (with_class GOALKEEPER_ID tracked));
      destruct (andb cb (Nat.eqb (Nat.modulo idx 10) 0));
      cbn [andb trace];
      rewrite !flat_map_app; simpl; rewrite ?app_nil_r; reflexivity.
Qed.

Lemma run_frames_and_writes (tc : classifier) (cb : bool)
    (frames : list frame) (st : State frame tracker) (idx : nat) :
  let st' := run tc cb st idx frames in
  frames_procesados (stats _ _ st') =
    (frames_procesados (stats _ _ st) + len frames)%Z /\
  written (trace _ _ st') = written (trace _ _ st) ++ frames.
Proof.
  revert st idx. induction frames as [|f rest IH]; intros st idx; cbv zeta.
  - simpl. unfold len. simpl. rewrite app_nil_r. split; [lia | reflexivity].
  - cbn [process_frames].
    destruct (IH (step tc cb st idx f) (S idx)) as [IHf IHw].
    destruct (process_frame_deltas tc cb st idx f) as (Hf & _).
    rewrite IHf, IHw, Hf, process_frame_writes_its_frame, <- app_assoc.
    unfold len. simpl length. split; [lia | reflexivity].
Qed.

(** Every frame of a run is counted once and written once: the frames
    written during the run, annotated or not, are the frames of the run,
    each one once and in their order. *)
Theorem run_writes_every_frame (tc : classifier) (cb : bool)
    (frames : list frame) (st : State frame tracker) (idx : nat) :
  let st' := run tc cb st idx frames in
  frames_procesados (stats _ _ st') =
    (frames_procesados (stats _ _ st) + len frames)%Z /\
  written (trace _ _ st') = written (trace _ _ st) ++ frames.
Proof.
  revert st idx. induction frames as [|f rest IH]; intros st idx; cbv zeta.
  - simpl. unfold len. simpl. rewrite app_nil_r. split; [lia | reflexivity].
  - cbn [process_frames].
    destruct (IH (step tc cb st idx f) (S idx)) as [IHf IHw].
    destruct (process_frame_deltas tc cb st idx f) as (Hf & _).
    rewrite IHf, IHw, Hf, process_frame_writes_its_frame, <- app_assoc.
    unfold len. simpl length. split; [lia | reflexivity].
Qed.

Lemma run_counter_bounds (tc : classifier) (cb : bool)
    (frames : list frame) (st : State frame tracker) (idx : nat) :
  let s := stats _ _ st in
  let s' := stats _ _ (run tc cb st idx frames) in
  (frames_procesados s <= frames_procesados s')%Z /\
  (detecciones_balon s <= detecciones_balon s' <= detecciones_balon s + len frames)%Z /\
  (total_detecciones s <= total_detecciones s')%Z /\
  (jugadores_equipo_0 s <= jugadores_equipo_0 s')%Z /\
  (jugadores_equipo_1 s <= jugadores_equipo_1 s')%Z /\
  (porteros_detectados s <= porteros_detectados s')%Z /\
  (arbitros_detectados s <= arbitros_detectados s')%Z.
Proof.
  revert st idx. induction frames as [|f rest IH]; intros st idx; cbv zeta.
  - simpl. unfold len. simpl. lia.
  - cbn [process_frames].
    specialize (IH (step tc cb st idx f) (S idx)). cbv zeta in IH.
    destruct (process_frame_deltas tc cb st idx f) as (Hf & Ht & Hb & _).
    pose proof (process_frame_monotone tc cb st idx f) as Hm. cbv zeta in Hm.
    unfold len in *. simpl length. lia.
Qed.

(** None of the seven statistics counters ever decreases during a run,
    and the ball counter grows by at most one per frame. *)
Theorem run_counters_monotone (tc : classifier) (cb : bool)
    (frames : list frame) (st : State frame tracker) (idx : nat) :
  let s := stats _ _ st in
  let s' := stats _ _ (run tc cb st idx frames) in
  (frames_procesados s <= frames_procesados s')%Z /\
  (detecciones_balon s <= detecciones_balon s' <= detecciones_balon s + len frames)%Z /\
  (total_detecciones s <= total_detecciones s')%Z /\
  (jugadores_equipo_0 s <= jugadores_equipo_0 s')%Z /\
  (jugadores_equipo_1 s <= jugadores_equipo_1 s')%Z /\
  (porteros_detectados s <= porteros_detectados s')%Z /\
  (arbitros_detectados s <= arbitros_detectados s')%Z.
Proof.
  revert st idx. induction frames as [|f rest IH]; intros st idx; cbv zeta.
  - simpl. unfold len. simpl. lia.
  - cbn [process_frames].
    specialize (IH (step tc cb st idx f) (S idx)). cbv zeta in IH.
    destruct (process_frame_deltas tc cb st idx f) as (Hf & Ht & Hb & _).
    pose proof (process_frame_monotone tc cb st idx f) as Hm. cbv zeta in Hm.
    unfold len in *. simpl length. lia.
Qed.

(** The total-detections counter adds up what the general detector
    returned on each frame of the run, before tracking. *)
Theorem run_total_detections (tc : classifier) (cb : bool)
    (frames : list frame) (st : State frame tracker) (idx : nat) :
  total_detecciones (stats _ _ (run tc cb st idx frames)) =
  (total_detecciones (stats _ _ st) + len (flat_map get_detections frames))%Z.
Proof.
  revert st idx. induction frames as [|f rest IH]; intros st idx.
  - simpl. unfold len. simpl. lia.
  - cbn [process_frames flat_map]. rewrite IH.
    destruct (process_frame_deltas tc cb st idx f) as (_ & Ht & _).
    rewrite Ht. unfold len. rewrite length_app. lia.
Qed.

(** The progress callback is invoked on the frames whose index is a
    multiple of ten and on no other: a run over [n] frames that starts at
    index [idx] invokes it once per multiple of ten in [idx, idx + n), and
    never when no callback was given. *)
Theorem run_progress_cadence (tc : classifier) (cb : bool)
    (frames : list frame) (st : State frame tracker) (idx : nat) :
  callbacks (trace _ _ (run tc cb st idx frames)) =
  callbacks (trace _ _ st) +
  (if cb then (idx + length frames + 9) / 10 - (idx + 9) / 10 else 0).
Proof.
  revert st idx. induction frames as [|f rest IH]; intros st idx.
  - simpl. destruct cb; rewrite ?Nat.add_0_r; lia.
  - cbn [process_frames]. rewrite IH.
    destruct (process_frame_deltas tc cb st idx f) as (_ & _ & _ & _ & Hc & _).
    rewrite Hc. destruct cb; cbn [andb]; [|lia].
    simpl length.
    pose proof (Nat.div_mod_eq idx 10).
    pose proof (Nat.mod_upper_bound idx 10).
    pose proof (Nat.div_mod_eq (S idx + length rest + 9) 10).
    pose proof (Nat.div_mod_eq (S idx + 9) 10).
    pose proof (Nat.div_mod_eq (idx + S (length rest) + 9) 10).
    pose proof (Nat.div_mod_eq (idx + 9) 10).
    pose proof (Nat.mod_upper_bound (S idx + length rest + 9) 10).
    pose proof (Nat.mod_upper_bound (S idx + 9) 10).
    pose proof (Nat.mod_upper_bound (idx + S (length rest) + 9) 10).
    pose proof (Nat.mod_upper_bound (idx + 9) 10).
    destruct (Nat.eqb_spec (idx mod 10) 0); lia.
Qed.

(** A run over frames on which the general detector finds nothing leaves
    both trackers and every counter but the frame counter as they were.
    It calls nothing but the progress callback and the general detector,
    and writes the frames of the run, each one once, in their order and
    as they came. *)
Theorem run_without_detections (tc : classifier) (cb : bool)
    (frames : list frame) (st : State frame tracker) (idx : nat) :
  (forall f, In f frames -> get_detections f = []) ->
  let st' := run tc cb st idx frames in
  byte_track _ _ st' = byte_track _ _ st /\
  ball_tracker _ _ st' = ball_tracker _ _ st /\
  stats _ _ st' =
    mk_stats (frames_procesados (stats _ _ st) + len frames)
      (jugadores_equipo_0 (stats _ _ st)) (jugadores_equipo_1 (stats _ _ st))
      (porteros_detectados (stats _ _ st)) (arbitros_detectados (stats _ _ st))
      (detecciones_balon (stats _ _ st)) (total_detecciones (stats _ _ st)) /\
  exists tail,
    trace _ _ st' = trace _ _ st ++ tail /\
    (forall e, In e tail ->
       (exists i, e = ProgressCallback frame i) \/
       (exists f, e = GetDetections frame f) \/
       (exists f, e = WriteFrame frame (Raw frame f))) /\
    filter (fun e : event frame =>
              match e with WriteFrame _ _ => true | _ => false end) tail =
      map (fun f => WriteFrame frame (Raw frame f)) frames.
Proof.
  revert st idx. induction frames as [|f rest IH]; intros st idx Hall; cbv zeta.
  - simpl. repeat split; try reflexivity.
    + destruct (stats _ _ st). unfold len. cbn. f_equal. lia.
    + exists []. rewrite app_nil_r.
      split; [reflexivity|]. split; [intros e [] | reflexivity].
  - cbn [process_frames].
    assert (Hf : get_detections f = []) by (apply Hall; left; reflexivity).
    rewrite (process_frame_empty _ _ _ get_detections with_nms
               update_with_detections ball_yolo predict tc cb st idx f Hf).
    match goal with |- context [run tc cb ?s (S idx) rest] => set (st1 := s) end.
    destruct (IH st1 (S idx)) as (Hbt & Hball & Hst & tail & Htr & Htail & Hw).
    { intros g Hg. apply Hall. right. exact Hg. }
    rewrite Hbt, Hball, Hst. unfold st1 at 1 2 3 4 5 6 7 8 9.
    cbn [byte_track ball_tracker stats frames_procesados jugadores_equipo_0
         jugadores_equipo_1 porteros_detectados arbitros_detectados
         detecciones_balon total_detecciones].
    split; [reflexivity|]. split; [reflexivity|]. split.
    + f_equal. unfold len. simpl length. lia.
    + exists (((if andb cb (Nat.eqb (Nat.modulo idx 10) 0)
               then [ProgressCallback frame idx] else []) ++
              [GetDetections frame f] ++ [WriteFrame frame (Raw frame f)]) ++ tail).
      split; [|split].
      * rewrite Htr. unfold st1. cbn [trace].
        repeat rewrite <- app_assoc. reflexivity.
      * intros e He. apply in_app_or in He. destruct He as [He | He];
          [|apply Htail; exact He].
        apply in_app_or in He. destruct He as [He | He].
        -- destruct (andb cb (Nat.eqb (Nat.modulo idx 10) 0)); [|contradiction].
           destruct He as [<- | []]. left. eauto.
        -- destruct He as [<- | [<- | []]]; right; [left | right]; eauto.
      * rewrite filter_app, Hw.
        destruct (andb cb (Nat.eqb (Nat.modulo idx 10) 0)); reflexivity.
Qed.

(** With a classifier that answers one label, 0 or 1, per crop, the two
    team counters together grow on each frame by the number of tracked
    player detections of that frame. *)
Theorem team_counters_cover_players (tc : classifier) (cb : bool)
    (st : State frame tracker) (idx : nat) (f : frame) :
  (forall crops, length (predict tc crops) = length crops /\
                 forall label, In label (predict tc crops) ->
                               label = 0%Z \/ label = 1%Z) ->
  get_detections f <> [] ->
  let s := stats _ _ st in
  let s' := stats _ _ (step tc cb st idx f) in
  let tracked := snd (update_with_detections (byte_track _ _ st) (get_detections f)) in
  (jugadores_equipo_0 s' + jugadores_equipo_1 s')%Z =
  (jugadores_equipo_0 s + jugadores_equipo_1 s + len (with_class PLAYER_ID tracked))%Z.
Proof.
  intros Hpred Hne. cbv zeta.
  destruct (process_frame_deltas tc cb st idx f) as (_ & _ & _ & _ & _ & H).
  destruct (H Hne) as (_ & _ & H0 & H1). rewrite H0, H1. clear H H0 H1.
  set (players := with_class PLAYER_ID _).
  destruct (Hpred (crops_of frame f players)) as [Hlen Hbin].
  assert (Hcount : forall ids : list Z,
            (forall label, In label ids -> label = 0%Z \/ label = 1%Z) ->
            (count_eq 0 ids + count_eq 1 ids)%Z = len ids).
  { unfold count_eq, len. induction ids as [|id ids IH]; intro Hb; [reflexivity|].
    assert (IH' := IH (fun l Hl => Hb l (or_intror Hl))).
    destruct (Hb id (or_introl eq_refl)) as [-> | ->]; simpl filter; simpl length; lia. }
  specialize (Hcount _ Hbin).
  assert (Hl : len (predict tc (crops_of frame f players)) = len players).
  { unfold len. rewrite Hlen. unfold crops_of. rewrite length_map. reflexivity. }
  destruct players as [|p ps] eqn:Ep; cbn [nonempty].
  - unfold len. simpl. lia.
  - lia.
Qed.

Lemma take_every_one {A : Type} (l : list A) : take_every 1 0 l = l.
Proof. induction l as [|x l IH]; [reflexivity|]. simpl. f_equal. exact IH. Qed.

Local Abbreviation video_run video fresh tc start_frame max_frames cb :=
  (process_video frame tracker classifier get_detections with_nms
     update_with_detections ball_yolo predict
     video fresh tc start_frame max_frames cb).
Local Abbreviation fresh_state fresh :=
  (mk_state frame tracker stats0 fresh (reset (init 30)) []).

(** [process_video] either raises before any frame or runs the frame
    loop, from the fresh state, over its window of the video. *)
Lemma process_video_window (video : list frame) (fresh : tracker)
    (tc : classifier) (start_frame : nat) (max_frames : option nat) (cb : bool) :
  match max_frames with
  | Some (S m) =>
      if length video <? start_frame + S m
      then video_run video fresh tc start_frame max_frames cb = None
      else video_run video fresh tc start_frame max_frames cb =
           Some (run tc cb (fresh_state fresh) 0
                   (firstn (S m) (skipn start_frame video)))
  | _ =>
      video_run video fresh tc start_frame max_frames cb =
      Some (run tc cb (fresh_state fresh) 0 (skipn start_frame video))
  end.
Proof.
  unfold process_video, get_video_frames_generator, validate_and_setup_video.
  destruct max_frames as [[|m]|].
  - rewrite take_every_one, firstn_all2 by (rewrite length_skipn; lia).
    reflexivity.
  - destruct (Nat.ltb_spec (length video) (start_frame + S m)); [reflexivity|].
    rewrite take_every_one.
    replace (Nat.min (start_frame + S m) (length video) - start_frame)
      with (S m) by lia.
    reflexivity.
  - rewrite take_every_one, firstn_all2 by (rewrite length_skipn; lia).
    reflexivity.
Qed.

(** [process_video] with a positive [max_frames] raises, before any frame
    is processed, when [start_frame + max_frames] exceeds the number of
    frames of the video; otherwise it processes and writes exactly the
    [max_frames] frames that start at [start_frame].  Without a positive
    [max_frames] it never raises and processes and writes the frames
    from [start_frame] to the end. *)
Theorem process_video_frame_count (video : list frame) (fresh : tracker)
    (tc : classifier) (start_frame : nat) (max_frames : option nat) (cb : bool) :
  match max_frames with
  | Some (S m) =>
      if length video <? start_frame + S m
      then video_run video fresh tc start_frame max_frames cb = None
      else exists st,
             video_run video fresh tc start_frame max_frames cb = Some st /\
             frames_procesados (stats _ _ st) = Z.of_nat (S m) /\
             written (trace _ _ st) = firstn (S m) (skipn start_frame video)
  | _ =>
      exists st,
        video_run video fresh tc start_frame max_frames cb = Some st /\
        frames_procesados (stats _ _ st) = Z.of_nat (length video - start_frame) /\
        written (trace _ _ st) = skipn start_frame video
  end.
Proof.
  pose proof (process_video_window video fresh tc start_frame max_frames cb) as H.
  destruct max_frames as [[|m]|].
  - eexists. split; [exact H|].
    destruct (run_frames_and_writes tc cb (skipn start_frame video)
                (fresh_state fresh) 0) as [Hf Hw].
    rewrite Hf, Hw. unfold len. rewrite length_skipn. split; reflexivity.
  - destruct (Nat.ltb_spec (length video) (start_frame + S m)) as [|Hle];
      [exact H|].
    eexists. split; [exact H|].
    destruct (run_frames_and_writes tc cb (firstn (S m) (skipn start_frame video))
                (fresh_state fresh) 0) as [Hf Hw].
    rewrite Hf, Hw. unfold len. rewrite length_firstn, length_skipn.
    split; [|reflexivity]. cbn [stats stats0 frames_procesados]. lia.
  - eexists. split; [exact H|].
    destruct (run_frames_and_writes tc cb (skipn start_frame video)
                (fresh_state fresh) 0) as [Hf Hw].
    rewrite Hf, Hw. unfold len. rewrite length_skipn. split; reflexivity.
Qed.

(** The frame range chosen in [main], for a video with as many frames as
    [VideoInfo] reports and a requested duration of at least one frame.
    With the whole video requested, the run completes and processes
    between 1 and 600 frames.  With a start and a duration, the run
    raises, before any frame is processed, when the start plus the
    duration capped at 600 frames exceeds the number of frames of the
    video; otherwise it completes and processes exactly the duration
    capped at 600 frames. *)
Theorem planned_run_at_most_600 (process_full : bool) (start_req max_req : nat)
    (start_frame : nat) (max_frames : option nat)
    (video : list frame) (fresh : tracker) (tc : classifier) (cb : bool) :
  plan_frames process_full (length video) start_req max_req =
    Some (start_frame, max_frames) ->
  (process_full = false -> 1 <= max_req) ->
  if process_full then
    exists st,
      video_run video fresh tc start_frame max_frames cb = Some st /\
      (1 <= frames_procesados (stats _ _ st) <= 600)%Z
  else if length video <? start_req + Nat.min max_req 600 then
    video_run video fresh tc start_frame max_frames cb = None
  else
    exists st,
      video_run video fresh tc start_frame max_frames cb = Some st /\
      frames_procesados (stats _ _ st) = Z.of_nat (Nat.min max_req 600).
Proof.
  intros Hplan Hreq.
  pose proof (process_video_window video fresh tc start_frame max_frames cb) as H.
  unfold plan_frames in Hplan. destruct process_full.
  - destruct (Nat.leb_spec (length video) 0) as [|Hlt]; [discriminate|].
    injection Hplan as <- <-.
    destruct (Nat.ltb_spec 600 (length video)) as [Hbig | Hsmall].
    + change (Some 600) with (Some (S 599)) in H.
      destruct (Nat.ltb_spec (length video) (0 + 600)) as [|_]; [lia|].
      eexists. split; [exact H|].
      destruct (run_frames_and_writes tc cb (firstn 600 (skipn 0 video))
                  (fresh_state fresh) 0) as [Hf _].
      rewrite Hf. unfold len. rewrite length_firstn, length_skipn.
      cbn [stats stats0 frames_procesados]. lia.
    + eexists. split; [exact H|].
      destruct (run_frames_and_writes tc cb (skipn 0 video)
                  (fresh_state fresh) 0) as [Hf _].
      rewrite Hf. unfold len. rewrite length_skipn.
      cbn [stats stats0 frames_procesados]. lia.
  - specialize (Hreq eq_refl).
    destruct (Nat.leb_spec (length video) start_req) as [|Hlt]; [discriminate|].
    injection Hplan as <- <-.
    assert (Hmin : (if 600 <? max_req then 600 else max_req) = Nat.min max_req 600)
      by (destruct (Nat.ltb_spec 600 max_req); lia).
    rewrite Hmin in *.
    destruct (Nat.min max_req 600) as [|m] eqn:Em; [lia|].
    destruct (Nat.ltb_spec (length video) (start_req + S m)) as [|Hle];
      [exact H|].
    eexists. split; [exact H|].
    destruct (run_frames_and_writes tc cb (firstn (S m) (skipn start_req video))
                (fresh_state fresh) 0) as [Hf _].
    rewrite Hf. unfold len. rewrite length_firstn, length_skipn.
    cbn [stats stats0 frames_procesados]. lia.
Qed.

(** The ball percentage shown after a completed run lies between 0 and
    100. *)
Theorem ball_percent_in_range (video : list frame) (fresh : tracker)
    (tc : classifier) (start_frame : nat) (max_frames : option nat) (cb : bool)
    (st : State frame tracker) :
  video_run video fresh tc start_frame max_frames cb = Some st ->
  (0 <= ball_percent (stats _ _ st) <= 100)%Q.
Proof.
  intro Hrun.
  assert (Hst : exists fs, st = run tc cb (fresh_state fresh) 0 fs).
  { pose proof (process_video_window video fresh tc start_frame max_frames cb) as H.
    destruct max_frames as [[|m]|].
    - rewrite H in Hrun. injection Hrun as <-. eauto.
    - destruct (length video <? start_frame + S m); rewrite H in Hrun;
        [discriminate|]. injection Hrun as <-. eauto.
    - rewrite H in Hrun. injection Hrun as <-. eauto. }
  destruct Hst as [fs ->].
  destruct (run_frames_and_writes tc cb fs (fresh_state fresh) 0) as [Hf _].
  destruct (run_counter_bounds tc cb fs (fresh_state fresh) 0) as (_ & Hb & _).
  set (st' := run tc cb (fresh_state fresh) 0 fs) in *.
  cbn [stats stats0 frames_procesados detecciones_balon] in Hf, Hb.
  unfold ball_percent.
  destruct (Z.ltb_spec 0 (frames_procesados (stats _ _ st'))) as [Hpos | Hle].
  - set (b := detecciones_balon (stats _ _ st')) in *.
    set (n := frames_procesados (stats _ _ st')) in *.
    assert (Hbn : (0 <= b <= n)%Z) by lia.
    destruct n as [|pn|pn]; try lia.
    unfold Qle, Qdiv, Qmult, Qinv, inject_Z. cbn [Qnum Qden].
    split; nia.
  - split; [apply Qle_refl | discriminate].
Qed.

End Runs.

Lemma run_without_detections_witness :
  (forall f, In f [only_ball_model; only_ball_model] -> seen f = []) /\
  ball_tracker _ _
    (process_frames scene Z unit seen no_nms numbering_tracker (Some ball_seen)
       stub_predict tt true state0 0 [only_ball_model; only_ball_model]) =
    reset (init 30) /\
  stats _ _
    (process_frames scene Z unit seen no_nms numbering_tracker (Some ball_seen)
       stub_predict tt true state0 0 [only_ball_model; only_ball_model]) =
    mk_stats 2 0 0 0 0 0 0.
Proof.
  assert (H : forall f, In f [only_ball_model; only_ball_model] -> seen f = []).
  { intros f [<- | [<- | []]]; reflexivity. }
  split; [exact H|].
  destruct (run_without_detections scene Z unit seen no_nms numbering_tracker
              (Some ball_seen) stub_predict tt true
              [only_ball_model; only_ball_model] state0 0 H)
    as (_ & Hball & Hst & _).
  split; [exact Hball | exact Hst].
Defined.

Lemma team_counters_cover_players_witness :
  (forall crops, length (stub_predict tt crops) = length crops /\
                 forall label, In label (stub_predict tt crops) ->
                               label = 0%Z \/ label = 1%Z) /\
  seen two_players <> [] /\
  (jugadores_equipo_0 (stats _ _ (stub_process_frame None state0 0 two_players)) +
   jugadores_equipo_1 (stats _ _ (stub_process_frame None state0 0 two_players)))%Z =
  2%Z.
Proof.
  assert (H : forall crops, length (stub_predict tt crops) = length crops /\
                 forall label, In label (stub_predict tt crops) ->
                               label = 0%Z \/ label = 1%Z).
  { intro crops. unfold stub_predict. rewrite length_map. split; [reflexivity|].
    intros label Hl. apply in_map_iff in Hl. destruct Hl as (_ & <- & _).
    left. reflexivity. }
  split; [exact H|]. split; [discriminate|].
  exact (team_counters_cover_players scene Z unit seen no_nms numbering_tracker
           None stub_predict tt false state0 0 two_players H ltac:(discriminate)).
Defined.

Lemma planned_run_at_most_600_witness :
  (plan_frames false (length [two_players; no_player; two_players]) 1 900 =
     Some (1, Some 600) /\
   process_video scene Z unit seen no_nms numbering_tracker None stub_predict
     [two_players; no_player; two_players] 1%Z tt 1 (Some 600) false = None) /\
  (plan_frames false (length [two_players; no_player; two_players]) 1 2 =
     Some (1, Some 2) /\
   exists st,
     process_video scene Z unit seen no_nms numbering_tracker None stub_predict
       [two_players; no_player; two_players] 1%Z tt 1 (Some 2) false = Some st /\
     frames_procesados (stats _ _ st) = 2%Z).
Proof.
  split; (split; [reflexivity|]).
  - exact (planned_run_at_most_600 scene Z unit seen no_nms numbering_tracker None
             stub_predict false 1 900 1 (Some 600)
             [two_players; no_player; two_players] 1%Z tt false
             eq_refl ltac:(intros _; lia)).
  - exact (planned_run_at_most_600 scene Z unit seen no_nms numbering_tracker None
             stub_predict false 1 2 1 (Some 2)
             [two_players; no_player; two_players] 1%Z tt false
             eq_refl ltac:(intros _; lia)).
Defined.

Lemma ball_percent_in_range_witness :
  process_video scene Z unit seen no_nms numbering_tracker (Some ball_seen)
    stub_predict [ball_and_player; only_ball_model] 1%Z tt 0 None false =
    Some (process_frames scene Z unit seen no_nms numbering_tracker
            (Some ball_seen) stub_predict tt false state0 0
            [ball_and_player; only_ball_model]) /\
  (0 <= ball_percent
          (stats _ _ (process_frames scene Z unit seen no_nms numbering_tracker
                        (Some ball_seen) stub_predict tt false state0 0
                        [ball_and_player; only_ball_model])) <= 100)%Q.
Proof.
  split; [reflexivity|].
  apply (ball_percent_in_range scene Z unit seen no_nms numbering_tracker
           (Some ball_seen) stub_predict
           [ball_and_player; only_ball_model] 1%Z tt 0 None false).
  reflexivity.
Defined.

(* ===================================================================== *)
(** ** More on create_team_classifier *)
(* ===================================================================== *)

Section Crops.

Variable frame : Type.
Variable get_detections : frame -> Detections.
Variable with_nms : Q -> bool -> Detections -> Detections.

Local Abbreviation collect := (collect_crops frame get_detections with_nms).
Local Abbreviation players_of f :=
  (with_class PLAYER_ID (with_nms (1 # 2)%Q true (get_detections f))).
Local Abbreviation crops_at f := (crops_of frame f (players_of f)).

Lemma collect_crops_origin (max_crops : Z) (frames : list frame) :
  forall crops c,
    In c (collect max_crops crops frames) ->
    In c crops \/
    exists f d, In f frames /\ In d (players_of f) /\ c = (f, xyxy d).
Proof.
  induction frames as [|f rest IH]; intros crops c H; [left; exact H|].
  cbn [collect_crops] in H.
  assert (Hnew : In c (crops ++ crops_at f) ->
                 In c crops \/
                 exists g d, In g (f :: rest) /\ In d (players_of g) /\ c = (g, xyxy d)).
  { intro Hc. apply in_app_or in Hc. destruct Hc as [Hc | Hc]; [left; exact Hc|].
    right. unfold crops_of in Hc. apply in_map_iff in Hc.
    destruct Hc as (d & <- & Hd). exists f, d.
    split; [left; reflexivity|]. split; [exact Hd | reflexivity]. }
  destruct (len (crops ++ crops_at f) >=? max_crops)%Z; [apply Hnew; exact H|].
  destruct (IH _ _ H) as [Hc | (g & d & Hg & Hd & ->)]; [apply Hnew; exact Hc|].
  right. exists g, d. split; [right; exact Hg|]. split; [exact Hd | reflexivity].
Qed.

(** Every crop handed to [fit] is the box of a player-class detection,
    after the suppression of overlapping boxes, of a frame whose index in
    the video is a multiple of the stride. *)
Theorem crops_from_sampled_players (video : list frame) (stride : nat)
    (max_crops : Z) (crops : list (crop frame)) (c : crop frame) :
  1 <= stride ->
  collected_crops frame get_detections with_nms video stride max_crops = Some crops ->
  In c crops ->
  exists i d,
    nth_error video (i * stride) = Some (fst c) /\
    In d (players_of (fst c)) /\
    class_id d = PLAYER_ID /\
    snd c = xyxy d.
Proof.
  intros Hs Hcrops H. unfold collected_crops in Hcrops.
  rewrite frames_generator_to_end in Hcrops. injection Hcrops as <-.
  apply collect_crops_origin in H.
  destruct H as [[] | (f & d & Hf & Hd & ->)].
  apply In_nth_error in Hf. destruct Hf as [i Hi].
  rewrite frames_generator_stride in Hi by exact Hs.
  exists i, d. cbn [fst snd]. split; [exact Hi|]. split; [exact Hd|].
  split; [|reflexivity].
  unfold with_class in Hd. apply filter_In in Hd. destruct Hd as [_ Hc].
  apply Z.eqb_eq. exact Hc.
Qed.

Lemma collect_crops_prefix_from (max_crops : Z) (frames : list frame) :
  forall crops,
    exists k,
      k <= length frames /\
      collect max_crops crops frames = crops ++ flat_map (fun f => crops_at f) (firstn k frames) /\
      (k < length frames -> (max_crops <= len (collect max_crops crops frames))%Z).
Proof.
  induction frames as [|f rest IH]; intro crops.
  - exists 0. simpl. rewrite app_nil_r. repeat split; [lia | lia].
  - cbn [collect_crops].
    destruct (Z.geb_spec (len (crops ++ crops_at f)) max_crops) as [Hge | Hlt].
    + exists 1. cbn [firstn flat_map length]. rewrite app_nil_r.
      split; [lia|]. split; [reflexivity|]. intros _. lia.
    + destruct (IH (crops ++ crops_at f)) as (k & Hk & Heq & Hcap).
      exists (S k). cbn [firstn flat_map length].
      split; [lia|]. split.
      * rewrite Heq, <- app_assoc. reflexivity.
      * intro Hlt'. apply Hcap. lia.
Qed.

(** The crops collected are those of an initial run of the sampled
    frames, frame by frame and in order; the run stops short of the last
    sampled frame only when the cap has been reached. *)
Theorem collect_crops_prefix (max_crops : Z) (frames : list frame) :
  exists k,
    k <= length frames /\
    collect max_crops [] frames = flat_map (fun f => crops_at f) (firstn k frames) /\
    (k < length frames -> (max_crops <= len (collect max_crops [] frames))%Z).
Proof. exact (collect_crops_prefix_from max_crops frames []). Qed.

End Crops.

Lemma crops_from_sampled_players_witness :
  collected_crops scene seen no_nms [two_players; no_player; two_players] 2 500 =
    Some [(two_players, xyxy raw_player_a); (two_players, xyxy raw_player_b);
          (two_players, xyxy raw_player_a); (two_players, xyxy raw_player_b)] /\
  exists i d,
    nth_error [two_players; no_player; two_players] (i * 2) = Some two_players /\
    In d (with_class PLAYER_ID (no_nms (1 # 2)%Q true (seen two_players))) /\
    class_id d = PLAYER_ID /\
    xyxy raw_player_b = xyxy d.
Proof.
  split; [reflexivity|].
  exact (crops_from_sampled_players scene seen no_nms
           [two_players; no_player; two_players] 2 500 _
           (two_players, xyxy raw_player_b) ltac:(lia) eq_refl
           ltac:(right; left; reflexivity)).
Defined.

Lemma collect_crops_bound_witness :
  (forall f, In f [two_players; two_players] ->
     (len (with_class PLAYER_ID (no_nms (1 # 2)%Q true (seen f))) <= 2)%Z) /\
  (len (collect_crops scene seen no_nms 1 [] [two_players; two_players]) < 1 + 2)%Z.
Proof.
  assert (H : forall f, In f [two_players; two_players] ->
     (len (with_class PLAYER_ID (no_nms (1 # 2)%Q true (seen f))) <= 2)%Z).
  { intros f [<- | [<- | []]]; vm_compute; discriminate. }
  split; [exact H|].
  apply (collect_crops_bound scene seen no_nms 1 2 [two_players; two_players]
           ltac:(lia) H []).
  vm_compute. reflexivity.
Defined.

(* ===================================================================== *)
(** ** The trail handed to the annotator *)
(* ===================================================================== *)

Lemma update_keeps_capacity (t : BallTracker) (detections : Detections) :
  length (buffer t) <= maxlen t ->
  length (buffer (snd (update t detections))) <= maxlen t /\
  maxlen (snd (update t detections)) = maxlen t.
Proof.
  intro H. destruct detections as [|d rest]; [split; [exact H | reflexivity]|].
  destruct (update_nonempty_shape t d rest) as (p & _ & Hu). rewrite Hu.
  cbn [snd buffer maxlen]. rewrite deque_append_length by exact H.
  split; [lia | reflexivity].
Qed.

Lemma update_newest (t : BallTracker) (detections : Detections) (p : point) :
  fst (update t detections) = Some p ->
  1 <= maxlen t ->
  exists front, buffer (snd (update t detections)) = front ++ [p].
Proof.
  intros Hp Hm. destruct detections as [|d rest]; [discriminate|].
  destruct (update_nonempty_shape t d rest) as (q & _ & Hu). rewrite Hu in *.
  cbn [fst snd buffer] in *. injection Hp as <-.
  apply deque_append_newest. exact Hm.
Qed.

Section Trails.

Variables frame tracker classifier : Type.
Variable get_detections : frame -> Detections.
Variable with_nms : Q -> bool -> Detections -> Detections.
Variable update_with_detections : tracker -> Detections -> tracker * Detections.
Variable ball_yolo : option (frame -> option Detections).
Variable predict : classifier -> list (crop frame) -> list Z.

Local Abbreviation step :=
  (process_frame frame tracker classifier get_detections with_nms
     update_with_detections ball_yolo predict).
Local Abbreviation run :=
  (process_frames frame tracker classifier get_detections with_nms
     update_with_detections ball_yolo predict).
Lemma process_frame_written (tc : classifier) (cb : bool)
    (st : State frame tracker) (idx : nat) (f : frame) :
  length (buffer (ball_tracker _ _ st)) <= maxlen (ball_tracker _ _ st) ->
  let st' := step tc cb st idx f in
  length (buffer (ball_tracker _ _ st')) <= maxlen (ball_tracker _ _ st) /\
  maxlen (ball_tracker _ _ st') = maxlen (ball_tracker _ _ st) /\
  exists tail,
    trace _ _ st' = trace _ _ st ++ tail /\
    forall g t0 t1 refs pos trail,
      In (WriteFrame frame (Annotated frame g t0 t1 refs pos trail)) tail ->
      length trail <= maxlen (ball_tracker _ _ st) /\
      forall p : point, pos = Some p -> 1 <= maxlen (ball_tracker _ _ st) ->
                        exists front, trail = front ++ [p].
Proof.
  intros Hcap. cbv zeta.
  destruct (get_detections f) as [|d rest] eqn:Hd.
  - rewrite (process_frame_empty _ _ _ get_detections with_nms
               update_with_detections ball_yolo predict tc cb st idx f Hd).
    cbn [ball_tracker trace]. split; [exact Hcap|]. split; [reflexivity|].
    exists ((if andb cb (Nat.eqb (Nat.modulo idx 10) 0)
             then [ProgressCallback frame idx] else []) ++
            [GetDetections frame f; WriteFrame frame (Raw frame f)]).
    split; [repeat rewrite <- app_assoc; reflexivity|].
    intros g t0 t1 refs pos trail H.
    apply in_app_or in H. destruct H as [H | H].
    + destruct (andb cb (Nat.eqb (Nat.modulo idx 10) 0)); [|contradiction].
      destruct H as [H | []]. discriminate.
    + destruct H as [H | [H | []]]; discriminate.
  - assert (Hne : get_detections f <> []) by (rewrite Hd; discriminate).
    destruct (process_frame_nonempty _ _ _ get_detections with_nms
                update_with_detections ball_yolo predict tc cb st idx f Hne)
      as (_ & Hball & _ & _ & _ & mid & t0' & t1' & Htr & Hmid).
    rewrite Hd in Hball, Htr. rewrite Hball.
    set (tracked := snd (update_with_detections (byte_track _ _ st) (d :: rest))) in *.
    set (bd := fst (detect_ball frame with_nms ball_yolo f tracked)) in *.
    destruct (update_keeps_capacity (ball_tracker _ _ st) bd Hcap) as [Hlen Hmax].
    split; [exact Hlen|]. split; [exact Hmax|].
    eexists. split; [exact Htr|].
    intros g t0 t1 refs pos trail H.
    apply in_app_or in H. destruct H as [H | H].
    { destruct (andb cb (Nat.eqb (Nat.modulo idx 10) 0)); [|contradiction].
      destruct H as [H | []]. discriminate. }
    apply in_app_or in H. destruct H as [H | H].
    { destruct H as [H | [H | []]]; discriminate. }
    apply in_app_or in H. destruct H as [H | H].
    { exfalso. revert H. unfold detect_ball.
      destruct ball_yolo as [yolo|]; [destruct (yolo f)|]; cbn [snd];
        intro H; simpl in H; intuition discriminate. }
    apply in_app_or in H. destruct H as [H | H].
    { destruct H as [H | []]. discriminate. }
    apply in_app_or in H. destruct H as [H | H].
    { exfalso. destruct (Hmid _ H) as [(c & Hc) | (ps & gs & Hc)]; discriminate. }
    destruct H as [H | []]. injection H as _ _ _ _ <- <-.
    split; [exact Hlen|].
    intros p Hp Hm. apply update_newest; assumption.
Qed.

(** Every annotated frame a run writes carries a trail that fits the
    capacity of the ball tracker; when a ball position is drawn on it, the
    newest sample of the trail is that position. *)
Theorem written_trails_follow_ball (tc : classifier) (cb : bool)
    (frames : list frame) (st : State frame tracker) (idx : nat) :
  length (buffer (ball_tracker _ _ st)) <= maxlen (ball_tracker _ _ st) ->
  exists tail,
    trace _ _ (run tc cb st idx frames) = trace _ _ st ++ tail /\
    forall g t0 t1 refs pos trail,
      In (WriteFrame frame (Annotated frame g t0 t1 refs pos trail)) tail ->
      length trail <= maxlen (ball_tracker _ _ st) /\
      forall p : point, pos = Some p -> 1 <= maxlen (ball_tracker _ _ st) ->
                        exists front, trail = front ++ [p].
Proof.
  revert st idx. induction frames as [|f rest IH]; intros st idx Hcap.
  - exists []. simpl. rewrite app_nil_r. split; [reflexivity | intros; contradiction].
  - cbn [process_frames].
    destruct (process_frame_written tc cb st idx f Hcap)
      as (Hlen & Hmax & tail1 & Htr1 & Hok1).
    destruct (IH (step tc cb st idx f) (S idx)) as (tail2 & Htr2 & Hok2).
    { rewrite Hmax. exact Hlen. }
    exists (tail1 ++ tail2). split.
    + rewrite Htr2, Htr1, app_assoc. reflexivity.
    + intros g t0 t1 refs pos trail H. apply in_app_or in H.
      destruct H as [H | H].
      * exact (Hok1 _ _ _ _ _ _ H).
      * rewrite <- Hmax. exact (Hok2 _ _ _ _ _ _ H).
Qed.

End Trails.

Lemma written_trails_follow_ball_witness :
  length (buffer (ball_tracker _ _ state0)) <= maxlen (ball_tracker _ _ state0) /\
  exists tail,
    trace _ _ (process_frames scene Z unit seen no_nms numbering_tracker
                 (Some ball_seen) stub_predict tt false state0 0
                 [ball_and_player; only_ball_model; ball_and_player]) =
      trace _ _ state0 ++ tail /\
    forall g t0 t1 refs pos trail,
      In (WriteFrame scene (Annotated scene g t0 t1 refs pos trail)) tail ->
      length trail <= 30 /\
      forall p : point, pos = Some p -> 1 <= 30 ->
                        exists front, trail = front ++ [p].
Proof.
  split; [simpl; lia|].
  apply (written_trails_follow_ball scene Z unit seen no_nms numbering_tracker
           (Some ball_seen) stub_predict tt false
           [ball_and_player; only_ball_model; ball_and_player] state0 0).
  simpl. lia.
Defined.
